(** * C4Replicator: the lifecycle controller of one replication session

    A shallow embedding of [Replicator/c4Replicator.hh].  The controller is
    a record holding the member variables of [struct C4Replicator]; each
    member function is a computation in a small state-and-trace monad.  The
    trace records, in program order, everything the controller does to the
    outside world: taking and dropping [_mutex], calls into the replication
    engine, calls of the subclass hooks, calls of the client's callbacks and
    assignments to [_selfRetain].  Logging is not modelled.

    Calls are taken one after the other: a client callback is an event of
    the trace, and what the client does inside it is not part of the call
    that made it.  The section on calling back lifts this for the
    status-changed callback.  The engine, the checkpoint store and the
    subclass are parameters of the model. *)

From Stdlib Require Import ZArith List Bool String Lia PeanoNat.
Import ListNotations.

(** ** Data model *)

(** Modelled from the spec: the enum [C4ReplicatorActivityLevel] is declared
    in [c4Replicator.h], which is not part of the source at hand.  The spec
    lists the levels as Stopped, Offline, Connecting, Idle, Busy; the source
    compares them with [<=], [>] and [>=] in that order. *)
Inductive C4ReplicatorActivityLevel : Type :=
| kC4Stopped
| kC4Offline
| kC4Connecting
| kC4Idle
| kC4Busy.

Definition levelValue (l : C4ReplicatorActivityLevel) : Z :=
  match l with
  | kC4Stopped => 0
  | kC4Offline => 1
  | kC4Connecting => 2
  | kC4Idle => 3
  | kC4Busy => 4
  end.

Definition level_eqb (a b : C4ReplicatorActivityLevel) : bool :=
  (levelValue a =? levelValue b)%Z.

Definition level_leb (a b : C4ReplicatorActivityLevel) : bool :=
  (levelValue a <=? levelValue b)%Z.

Definition level_ltb (a b : C4ReplicatorActivityLevel) : bool :=
  (levelValue a <? levelValue b)%Z.

(** Modelled from the spec: [C4Progress] with the two counters that
    [notifyStateChanged] reads. *)
Record C4Progress : Type := mkProgress {
  unitsCompleted : Z;
  unitsTotal : Z
}.

(** [_status.progress = {}] *)
Definition noProgress : C4Progress := mkProgress 0 0.

(** Modelled from the spec: [C4Error]; a [code] of 0 means no error. *)
Record C4Error : Type := mkError {
  domain : Z;
  code : Z
}.

Definition noError : C4Error := mkError 0 0.

(** Modelled from the spec: the flag bits of [C4ReplicatorStatusFlags], a
    32-bit option set declared in [c4Replicator.h]. *)
Definition C4ReplicatorStatusFlags : Type := Z.
Definition kC4WillRetry : C4ReplicatorStatusFlags := 1%Z.
Definition kC4HostReachable : C4ReplicatorStatusFlags := 2%Z.
Definition kC4Suspended : C4ReplicatorStatusFlags := 4%Z.

Record C4ReplicatorStatus : Type := mkStatus {
  level : C4ReplicatorActivityLevel;
  progress : C4Progress;
  error : C4Error;
  flags : C4ReplicatorStatusFlags
}.

Definition with_level (l : C4ReplicatorActivityLevel) (s : C4ReplicatorStatus)
  : C4ReplicatorStatus :=
  mkStatus l (progress s) (error s) (flags s).

Definition with_progress (p : C4Progress) (s : C4ReplicatorStatus)
  : C4ReplicatorStatus :=
  mkStatus (level s) p (error s) (flags s).

Definition with_flags (f : C4ReplicatorStatusFlags) (s : C4ReplicatorStatus)
  : C4ReplicatorStatus :=
  mkStatus (level s) (progress s) (error s) f.

(** [enum C4ReplicatorMode] of the options. *)
Inductive C4ReplicatorMode : Type :=
| kC4Disabled
| kC4Passive
| kC4OneShot
| kC4Continuous.

Definition mode_eqb (a b : C4ReplicatorMode) : bool :=
  match a, b with
  | kC4Disabled, kC4Disabled | kC4Passive, kC4Passive
  | kC4OneShot, kC4OneShot | kC4Continuous, kC4Continuous => true
  | _, _ => false
  end.

(** [AllocedDict]: the key-value properties of the options. *)
Definition AllocedDict : Type := list (string * string).

(** [Replicator::Options], as far as the controller reads or writes it. *)
Record Options : Type := mkOptions {
  push : C4ReplicatorMode;
  pull : C4ReplicatorMode;
  properties : AllocedDict;
  callbackContext : nat
}.

Definition with_properties (p : AllocedDict) (o : Options) : Options :=
  mkOptions (push o) (pull o) p (callbackContext o).

(** A [Replicator*]: the identity of an engine instance. *)
Definition Replicator : Type := nat.

(** A client callback is a C function pointer; only its identity matters. *)
Definition C4ReplicatorStatusChangedCallback : Type := nat.
Definition C4ReplicatorDocumentsEndedCallback : Type := nat.
Definition C4ReplicatorBlobProgressCallback : Type := nat.

(** [enum class Dir] of a replicated revision. *)
Inductive Dir : Type :=
| kPulling
| kPushing.

Definition isPushing (d : Dir) : bool :=
  match d with
  | kPushing => true
  | kPulling => false
  end.

Record C4DocumentEnded : Type := mkDocumentEnded {
  docID : string;
  revID : string
}.

(** A [ReplicatedRev]: [dir()] and [asDocumentEnded()]. *)
Record ReplicatedRev : Type := mkRev {
  dir : Dir;
  asDocumentEnded : C4DocumentEnded
}.

(** [Replicator::BlobProgress] *)
Record BlobProgress : Type := mkBlobProgress {
  bp_dir : Dir;
  bp_docID : string;
  bp_docProperty : string;
  bp_key : string;
  bytesCompleted : Z;
  bytesTotal : Z;
  bp_error : C4Error
}.

(** [alloc_slice]: the encoded response headers.  [None] is the null slice. *)
Definition alloc_slice : Type := option string.

(** What [pendingDocumentIDs] returns: the null slice, or the encoded array
    of document IDs.  The encoding itself belongs to Fleece. *)
Inductive C4SliceResult : Type :=
| NullSlice
| EncodedArray (ids : list string).

(** ** The controller's member variables *)

(** Modelled from the spec: [Retained<T>] is Fleece's reference-counting
    smart pointer, declared outside the source at hand.  [_selfRetain] is
    either null ([false]) or [this] ([true]); [selfRetentions] counts the
    references on the controller that were taken through [_selfRetain] and
    not yet given back. *)
Record C4Replicator : Type := mkC4Replicator {
  _options : Options;
  _replicator : option Replicator;
  _status : C4ReplicatorStatus;
  _activeWhenSuspended : bool;
  _responseHeaders : alloc_slice;
  _selfRetain : bool;
  _onStatusChanged : option C4ReplicatorStatusChangedCallback;
  _onDocumentsEnded : option C4ReplicatorDocumentsEndedCallback;
  _onBlobProgress : option C4ReplicatorBlobProgressCallback;
  selfRetentions : nat
}.

Definition set_options (o : Options) (c : C4Replicator) : C4Replicator :=
  mkC4Replicator o (_replicator c) (_status c) (_activeWhenSuspended c)
    (_responseHeaders c) (_selfRetain c) (_onStatusChanged c)
    (_onDocumentsEnded c) (_onBlobProgress c) (selfRetentions c).

Definition set_replicator (r : option Replicator) (c : C4Replicator)
  : C4Replicator :=
  mkC4Replicator (_options c) r (_status c) (_activeWhenSuspended c)
    (_responseHeaders c) (_selfRetain c) (_onStatusChanged c)
    (_onDocumentsEnded c) (_onBlobProgress c) (selfRetentions c).

Definition set_status (s : C4ReplicatorStatus) (c : C4Replicator)
  : C4Replicator :=
  mkC4Replicator (_options c) (_replicator c) s (_activeWhenSuspended c)
    (_responseHeaders c) (_selfRetain c) (_onStatusChanged c)
    (_onDocumentsEnded c) (_onBlobProgress c) (selfRetentions c).

Definition set_activeWhenSuspended (b : bool) (c : C4Replicator)
  : C4Replicator :=
  mkC4Replicator (_options c) (_replicator c) (_status c) b
    (_responseHeaders c) (_selfRetain c) (_onStatusChanged c)
    (_onDocumentsEnded c) (_onBlobProgress c) (selfRetentions c).

Definition set_responseHeaders (h : alloc_slice) (c : C4Replicator)
  : C4Replicator :=
  mkC4Replicator (_options c) (_replicator c) (_status c)
    (_activeWhenSuspended c) h (_selfRetain c) (_onStatusChanged c)
    (_onDocumentsEnded c) (_onBlobProgress c) (selfRetentions c).

Definition b2n (b : bool) : nat := if b then 1 else 0.

(** [Retained<T>::operator=]: take a reference on the new pointee, then give
    back the one on the old pointee. *)
Definition assign_selfRetain (t : bool) (c : C4Replicator) : C4Replicator :=
  mkC4Replicator (_options c) (_replicator c) (_status c)
    (_activeWhenSuspended c) (_responseHeaders c) t (_onStatusChanged c)
    (_onDocumentsEnded c) (_onBlobProgress c)
    (selfRetentions c + b2n t - b2n (_selfRetain c)).

Definition clear_callbacks (c : C4Replicator) : C4Replicator :=
  mkC4Replicator (_options c) (_replicator c) (_status c)
    (_activeWhenSuspended c) (_responseHeaders c) (_selfRetain c) None None
    None (selfRetentions c).

(** ** Traces *)

Inductive Event : Type :=
| EvLock                       (* LOCK(_mutex) *)
| EvUnlock                     (* the lock guard goes out of scope *)
| EvCreateReplicator (r : Replicator)
| EvReplicatorStart (r : Replicator)
| EvReplicatorStop (r : Replicator)
| EvReplicatorTerminate (r : Replicator)
| EvHandleConnected
| EvHandleStopped
| EvNotifyStateChanged (s : C4ReplicatorStatus)
| EvOnStatusChanged (cb : C4ReplicatorStatusChangedCallback)
    (s : C4ReplicatorStatus) (context : nat)
| EvOnDocumentsEnded (cb : C4ReplicatorDocumentsEndedCallback)
    (pushing : bool) (docs : list C4DocumentEnded) (context : nat)
| EvOnBlobProgress (cb : C4ReplicatorBlobProgressCallback)
    (pushing : bool) (p : BlobProgress) (context : nat)
| EvSelfRetain (t : bool)      (* _selfRetain = this / nullptr *)
| EvAssertionFailed.

(** ** The monad: controller state and trace *)

Definition M (A : Type) : Type :=
  C4Replicator -> A * C4Replicator * list Event.

Definition ret {A : Type} (a : A) : M A := fun c => (a, c, []).

Definition bind {A B : Type} (m : M A) (k : A -> M B) : M B :=
  fun c =>
    let '(a, c1, t1) := m c in
    let '(b, c2, t2) := k a c1 in
    (b, c2, t1 ++ t2).

Definition get : M C4Replicator := fun c => (c, c, []).
Definition modify (f : C4Replicator -> C4Replicator) : M unit :=
  fun c => (tt, f c, []).
Definition emit (e : Event) : M unit := fun c => (tt, c, [e]).

Declare Scope ctl_scope.
Delimit Scope ctl_scope with ctl.
Notation "x <- m ;; k" := (bind m (fun x => k))
  (at level 61, m at next level, right associativity) : ctl_scope.
Notation "m ;; k" := (bind m (fun _ => k))
  (at level 61, right associativity) : ctl_scope.
Open Scope ctl_scope.

Definition when (b : bool) (m : M unit) : M unit :=
  if b then m else ret tt.

(** [LOCK(_mutex)] at the head of a block: the guard is held until the
    block is left, also when it is left by [return]. *)
Definition LOCK {A : Type} (body : M A) : M A :=
  emit EvLock ;; x <- body ;; emit EvUnlock ;; ret x.

Definition state_of {A : Type} (r : A * C4Replicator * list Event)
  : C4Replicator := snd (fst r).
Definition trace_of {A : Type} (r : A * C4Replicator * list Event)
  : list Event := snd r.
Definition value_of {A : Type} (r : A * C4Replicator * list Event) : A :=
  fst (fst r).

(** ** Collaborators *)

(** The virtual functions that a concrete session type supplies.
    [createReplicator] is pure virtual and makes the engine instance;
    the two handlers are empty in the base class, and an override "may
    modify [_status] to change the client notification". *)
Class Subclass : Type := {
  createReplicator : C4Replicator -> Replicator;
  handleConnected : C4ReplicatorStatus -> C4ReplicatorStatus;
  handleStopped : C4ReplicatorStatus -> C4ReplicatorStatus
}.

(** Modelled from the spec: the outcome of a pending-documents query of the
    engine or of the checkpoint store, neither of which is part of the
    source at hand.  The query hands every pending document to the
    callback; it fails by returning [false] and writing an error through
    the error out-parameter when that is not null. *)
Record PendingQuery : Type := mkPendingQuery {
  pq_docs : list string;
  pq_error : option C4Error
}.

(** Modelled from the spec: the calls the controller consumes from the
    replication engine and from the checkpoint store. *)
Class Collaborators : Type := {
  replicator_status : Replicator -> C4ReplicatorStatus;
  replicator_pendingDocumentIDs : Replicator -> PendingQuery;
  checkpointer_pendingDocumentIDs : Options -> PendingQuery;
  replicator_isDocumentPending : Replicator -> string -> bool * option C4Error;
  checkpointer_isDocumentPending : Options -> string -> bool * option C4Error
}.

(** Writing [e] through a [C4Error*] that may be null. *)
Definition write_error (e : C4Error) (outErr : option C4Error)
  : option C4Error :=
  match outErr with
  | Some _ => Some e
  | None => None
  end.

(** Modelled from the spec: the "unsupported operation" error of [retry];
    [LiteCoreDomain] and [kC4ErrorUnsupported] are declared in [c4Base.h]. *)
Definition LiteCoreDomain : Z := 1%Z.
Definition kC4ErrorUnsupported : Z := 19%Z.

(** The arguments of the constructor that the controller keeps. *)
Record C4ReplicatorParameters : Type := mkParameters {
  p_push : C4ReplicatorMode;
  p_pull : C4ReplicatorMode;
  p_properties : AllocedDict;
  p_onStatusChanged : option C4ReplicatorStatusChangedCallback;
  p_onDocumentsEnded : option C4ReplicatorDocumentsEndedCallback;
  p_onBlobProgress : option C4ReplicatorBlobProgressCallback;
  p_callbackContext : nat
}.

(** The base constructor: [_status {kC4Stopped}], then
    [_status.flags |= kC4HostReachable]. *)
Definition construct (params : C4ReplicatorParameters) : C4Replicator :=
  mkC4Replicator
    (mkOptions (p_push params) (p_pull params) (p_properties params)
       (p_callbackContext params))
    None
    (mkStatus kC4Stopped noProgress noError (Z.lor 0 kC4HostReachable))
    false
    None
    false
    (p_onStatusChanged params)
    (p_onDocumentsEnded params)
    (p_onBlobProgress params)
    0.

(** [repl == _replicator], for a [repl] that is not null. *)
Definition is_current (repl : Replicator) (c : C4Replicator) : bool :=
  match _replicator c with
  | Some r => Nat.eqb repl r
  | None => false
  end.

Fixpoint for_each {A : Type} (l : list A) (body : A -> M unit) : M unit :=
  match l with
  | [] => ret tt
  | x :: l' => body x ;; for_each l' body
  end.

(** ** The member functions *)

Section Operations.
Context {SC : Subclass} {CO : Collaborators}.

Definition statusFlag (flag : C4ReplicatorStatusFlags) : M bool :=
  c <- get ;;
  ret (negb (Z.land (flags (_status c)) flag =? 0)%Z).

Definition setStatusFlag (flag : C4ReplicatorStatusFlags) (on : bool)
  : M bool :=
  c <- get ;;
  let flags0 := flags (_status c) in
  let flags1 :=
    if on then Z.lor flags0 flag else Z.land flags0 (Z.lnot flag) in
  if (flags1 =? flags0)%Z then ret false
  else
    modify (fun c => set_status (with_flags flags1 (_status c)) c) ;;
    ret true.

Definition updateStatusFromReplicator (status : C4ReplicatorStatus)
  : M unit :=
  c <- get ;;
  let flags0 := flags (_status c) in
  modify (set_status status) ;;
  modify (fun c => set_status (with_flags flags0 (_status c)) c).

Definition selfRetain_assign (t : bool) : M unit :=
  modify (assign_selfRetain t) ;;
  emit (EvSelfRetain t).

Definition continuous : M bool :=
  c <- get ;;
  ret (mode_eqb (push (_options c)) kC4Continuous
       || mode_eqb (pull (_options c)) kC4Continuous).

Definition notifyStateChanged : M unit :=
  c <- get ;;
  emit (EvNotifyStateChanged (_status c)) ;;
  match _onStatusChanged c with
  | Some onStatusChanged =>
      emit (EvOnStatusChanged onStatusChanged (_status c)
              (callbackContext (_options c)))
  | None => ret tt
  end.

Definition _start : M unit :=
  c <- get ;;
  r <- match _replicator c with
       | Some r => ret r
       | None =>
           let r := createReplicator c in
           modify (set_replicator (Some r)) ;;
           emit (EvCreateReplicator r) ;;
           ret r
       end ;;
  selfRetain_assign true ;;
  updateStatusFromReplicator (replicator_status r) ;;
  modify (set_responseHeaders None) ;;
  emit (EvReplicatorStart r).

Definition _suspend : M unit :=
  c <- get ;;
  match _replicator c with
  | Some r => emit (EvReplicatorStop r)
  | None => ret tt
  end.

Definition _unsuspend : M unit := _start.

Definition start : M unit :=
  LOCK (
    c <- get ;;
    match _replicator c with
    | None => _start
    | Some _ => ret tt
    end).

Definition retry (resetCount : bool) (outError : option C4Error)
  : M (bool * option C4Error) :=
  ret (false, write_error (mkError LiteCoreDomain kC4ErrorUnsupported)
                outError).

Definition setHostReachable (reachable : bool) : M unit := ret tt.

Definition setSuspended (suspended : bool) : M unit :=
  LOCK (
    changed <- setStatusFlag kC4Suspended suspended ;;
    if negb changed then ret tt
    else if suspended then
      c <- get ;;
      let active := level_leb kC4Connecting (level (_status c)) in
      modify (set_activeWhenSuspended active) ;;
      when active _suspend
    else
      c <- get ;;
      when (level_eqb (level (_status c)) kC4Offline
            && _activeWhenSuspended c) _unsuspend).

Definition responseHeaders : M alloc_slice :=
  LOCK (c <- get ;; ret (_responseHeaders c)).

Definition status : M C4ReplicatorStatus :=
  LOCK (c <- get ;; ret (_status c)).

Definition stop : M unit :=
  LOCK (
    c <- get ;;
    match _replicator c with
    | Some r => emit (EvReplicatorStop r)
    | None =>
        if negb (level_eqb (level (_status c)) kC4Stopped) then
          modify (fun c => set_status (with_level kC4Stopped (_status c)) c) ;;
          modify (fun c => set_status (with_progress noProgress (_status c)) c) ;;
          notifyStateChanged ;;
          selfRetain_assign false
        else ret tt
    end).

Definition setProperties (properties : AllocedDict) : M unit :=
  LOCK (modify (fun c => set_options (with_properties properties (_options c)) c)).

Definition detach : M unit :=
  LOCK (modify clear_callbacks).

(** The lambda handed to the query: [enc.writeString(info.docID); any = true]. *)
Definition pending_callback (acc : list string * bool) (docID : string)
  : list string * bool :=
  (fst acc ++ [docID], true).

(** The query behind [pendingDocumentIDs]: the live engine's, or that of
    a transient [Checkpointer(_options, URL())]. *)
Definition pending_query (c : C4Replicator) : PendingQuery :=
  match _replicator c with
  | Some r => replicator_pendingDocumentIDs r
  | None => checkpointer_pendingDocumentIDs (_options c)
  end.

Definition pendingDocumentIDs (outErr : option C4Error)
  : M (C4SliceResult * option C4Error) :=
  LOCK (
    c <- get ;;
    let q := pending_query c in
    let '(enc, any) := fold_left pending_callback (pq_docs q) ([], false) in
    match pq_error q with
    | Some e => ret (NullSlice, write_error e outErr)
    | None =>
        ret (if any then EncodedArray enc else NullSlice, outErr)
    end).

Definition isDocumentPending (docID : string) (outErr : option C4Error)
  : M (bool * option C4Error) :=
  LOCK (
    c <- get ;;
    let '(pending, err) :=
      match _replicator c with
      | Some r => replicator_isDocumentPending r docID
      | None => checkpointer_isDocumentPending (_options c) docID
      end in
    match err with
    | Some e => ret (pending, write_error e outErr)
    | None => ret (pending, outErr)
    end).

(** The destructor tears down an engine instance that is still there. *)
Definition destructor : M unit :=
  c <- get ;;
  match _replicator c with
  | Some r => emit (EvReplicatorTerminate r)
  | None => ret tt
  end.

(** *** The [Replicator::Delegate] functions *)

Definition replicatorGotHTTPResponse (repl : Replicator) (httpStatus : Z)
    (headers : string) : M unit :=
  LOCK (
    c <- get ;;
    if is_current repl c then
      match _responseHeaders c with
      | Some _ => emit EvAssertionFailed
      | None => modify (set_responseHeaders (Some headers))
      end
    else ret tt).

Definition call_handleConnected : M unit :=
  emit EvHandleConnected ;;
  modify (fun c => set_status (handleConnected (_status c)) c).

Definition call_handleStopped : M unit :=
  emit EvHandleStopped ;;
  modify (fun c => set_status (handleStopped (_status c)) c).

(** The block of [replicatorStatusChanged] that runs under the lock.
    [None] is the early [return]; [Some stopped] falls through to the
    notification. *)
Definition statusChanged_locked (repl : Replicator)
    (newStatus : C4ReplicatorStatus) : M (option bool) :=
  LOCK (
    c <- get ;;
    if negb (is_current repl c) then ret None
    else
      let oldLevel := level (_status c) in
      updateStatusFromReplicator newStatus ;;
      c <- get ;;
      when (level_ltb kC4Connecting (level (_status c))
            && level_leb oldLevel kC4Connecting) call_handleConnected ;;
      c <- get ;;
      when (level_eqb (level (_status c)) kC4Stopped) (
        emit (EvReplicatorTerminate repl) ;;
        modify (set_replicator None) ;;
        suspended <- statusFlag kC4Suspended ;;
        if suspended then
          modify (fun c => set_status (with_level kC4Offline (_status c)) c)
        else call_handleStopped) ;;
      c <- get ;;
      ret (Some (level_eqb (level (_status c)) kC4Stopped))).

Definition replicatorStatusChanged (repl : Replicator)
    (newStatus : C4ReplicatorStatus) : M unit :=
  r <- statusChanged_locked repl newStatus ;;
  match r with
  | None => ret tt
  | Some stopped =>
      notifyStateChanged ;;
      when stopped (selfRetain_assign false)
  end.

(** The inner loop of [replicatorDocumentsEnded]: [docsEnded.push_back]
    for every revision of the wanted direction. *)
Definition collect_docsEnded (pushing : bool) (revs : list ReplicatedRev)
  : list C4DocumentEnded :=
  fold_left
    (fun docsEnded rev =>
       if Bool.eqb (isPushing (dir rev)) pushing
       then docsEnded ++ [asDocumentEnded rev]
       else docsEnded)
    revs [].

Definition replicatorDocumentsEnded (repl : Replicator)
    (revs : list ReplicatedRev) : M unit :=
  c <- get ;;
  if negb (is_current repl c) then ret tt
  else
    for_each [false; true] (fun pushing =>
      let docsEnded := collect_docsEnded pushing revs in
      match docsEnded with
      | [] => ret tt
      | _ :: _ =>
          c <- get ;;
          match _onDocumentsEnded c with
          | Some onDocsEnded =>
              emit (EvOnDocumentsEnded onDocsEnded pushing docsEnded
                      (callbackContext (_options c)))
          | None => ret tt
          end
      end).

Definition replicatorBlobProgress (repl : Replicator) (p : BlobProgress)
  : M unit :=
  c <- get ;;
  if negb (is_current repl c) then ret tt
  else
    match _onBlobProgress c with
    | Some onBlob =>
        emit (EvOnBlobProgress onBlob (isPushing (bp_dir p)) p
                (callbackContext (_options c)))
    | None => ret tt
    end.

End Operations.

(** ** Sequences of calls *)

(** One call into the controller: by the host application, or by the
    engine through the delegate interface. *)
Inductive Op : Type :=
| OpStart
| OpRetry (resetCount : bool) (outError : option C4Error)
| OpSetHostReachable (reachable : bool)
| OpSetSuspended (suspended : bool)
| OpResponseHeaders
| OpStatus
| OpStop
| OpSetProperties (properties : AllocedDict)
| OpDetach
| OpPendingDocumentIDs (outErr : option C4Error)
| OpIsDocumentPending (docID : string) (outErr : option C4Error)
| OpGotHTTPResponse (repl : Replicator) (httpStatus : Z) (headers : string)
| OpStatusChanged (repl : Replicator) (newStatus : C4ReplicatorStatus)
| OpDocumentsEnded (repl : Replicator) (revs : list ReplicatedRev)
| OpBlobProgress (repl : Replicator) (p : BlobProgress).

Definition discard {A : Type} (m : M A) : M unit := _ <- m ;; ret tt.

Section Runs.
Context {SC : Subclass} {CO : Collaborators}.

Definition step (op : Op) : M unit :=
  match op with
  | OpStart => start
  | OpRetry resetCount outError => discard (retry resetCount outError)
  | OpSetHostReachable reachable => setHostReachable reachable
  | OpSetSuspended suspended => setSuspended suspended
  | OpResponseHeaders => discard responseHeaders
  | OpStatus => discard status
  | OpStop => stop
  | OpSetProperties properties => setProperties properties
  | OpDetach => detach
  | OpPendingDocumentIDs outErr => discard (pendingDocumentIDs outErr)
  | OpIsDocumentPending docID outErr =>
      discard (isDocumentPending docID outErr)
  | OpGotHTTPResponse repl httpStatus headers =>
      replicatorGotHTTPResponse repl httpStatus headers
  | OpStatusChanged repl newStatus => replicatorStatusChanged repl newStatus
  | OpDocumentsEnded repl revs => replicatorDocumentsEnded repl revs
  | OpBlobProgress repl p => replicatorBlobProgress repl p
  end.

Definition run (ops : list Op) : M unit := for_each ops step.

End Runs.

(** ** Calls made from inside the status-changed callback *)

(** The status-changed callback is code of the client, and it may call
    back into the controller before it returns.  [client s] is what the
    callback does to the controller when it is told [s]; a callback that
    makes no call is [fun _ => ret tt].  The three functions below are
    [notifyStateChanged], [replicatorStatusChanged] and [stop] with the
    callback's own calls run at the place where the callback is called. *)
Section CallingBack.
Context {SC : Subclass}.
Variable client : C4ReplicatorStatus -> M unit.

Definition notifyStateChanged_calling : M unit :=
  c <- get ;;
  emit (EvNotifyStateChanged (_status c)) ;;
  match _onStatusChanged c with
  | Some onStatusChanged =>
      emit (EvOnStatusChanged onStatusChanged (_status c)
              (callbackContext (_options c))) ;;
      client (_status c)
  | None => ret tt
  end.

Definition replicatorStatusChanged_calling (repl : Replicator)
    (newStatus : C4ReplicatorStatus) : M unit :=
  r <- statusChanged_locked repl newStatus ;;
  match r with
  | None => ret tt
  | Some stopped =>
      notifyStateChanged_calling ;;
      when stopped (selfRetain_assign false)
  end.

Definition stop_calling : M unit :=
  LOCK (
    c <- get ;;
    match _replicator c with
    | Some r => emit (EvReplicatorStop r)
    | None =>
        if negb (level_eqb (level (_status c)) kC4Stopped) then
          modify (fun c => set_status (with_level kC4Stopped (_status c)) c) ;;
          modify (fun c => set_status (with_progress noProgress (_status c)) c) ;;
          notifyStateChanged_calling ;;
          selfRetain_assign false
        else ret tt
    end).

End CallingBack.

(** ** Reading a trace *)

(** The statuses handed to [notifyStateChanged], in order. *)
Fixpoint published (tr : list Event) : list C4ReplicatorStatus :=
  match tr with
  | [] => []
  | EvNotifyStateChanged s :: tr' => s :: published tr'
  | _ :: tr' => published tr'
  end.

(** The calls of the client's status-changed callback, in order. *)
Fixpoint statusChanged_calls (tr : list Event)
  : list (C4ReplicatorStatusChangedCallback * C4ReplicatorStatus * nat) :=
  match tr with
  | [] => []
  | EvOnStatusChanged cb s ctx :: tr' => (cb, s, ctx) :: statusChanged_calls tr'
  | _ :: tr' => statusChanged_calls tr'
  end.

Definition is_client_callback (e : Event) : bool :=
  match e with
  | EvOnStatusChanged _ _ _ | EvOnDocumentsEnded _ _ _ _
  | EvOnBlobProgress _ _ _ _ => true
  | _ => false
  end.

Definition is_release (e : Event) : bool :=
  match e with
  | EvSelfRetain false => true
  | _ => false
  end.

Definition is_handleStopped (e : Event) : bool :=
  match e with
  | EvHandleStopped => true
  | _ => false
  end.

(** Does the trace call a client callback while [_mutex] is held?
    [held] tells whether the lock is held when the trace begins. *)
Fixpoint callback_under_lock (held : bool) (tr : list Event) : bool :=
  match tr with
  | [] => false
  | EvLock :: tr' => callback_under_lock true tr'
  | EvUnlock :: tr' => callback_under_lock false tr'
  | e :: tr' =>
      (held && is_client_callback e) || callback_under_lock held tr'
  end.

(** Is [_mutex] held at the end of the trace? *)
Fixpoint held_after (held : bool) (tr : list Event) : bool :=
  match tr with
  | [] => held
  | EvLock :: tr' => held_after true tr'
  | EvUnlock :: tr' => held_after false tr'
  | _ :: tr' => held_after held tr'
  end.

(** Is a status with level [l] handed to [notifyStateChanged]? *)
Definition publishes (l : C4ReplicatorActivityLevel) (tr : list Event) : bool :=
  existsb (fun s => level_eqb (level s) l) (published tr).

(** The partition of a batch the way the spec words it: the revisions of
    one direction, in the order of the batch. *)
Definition revisions_of (d : Dir) (revs : list ReplicatedRev)
  : list C4DocumentEnded :=
  map asDocumentEnded
    (filter (fun rev => Bool.eqb (isPushing (dir rev)) (isPushing d)) revs).

(** One call of the documents-ended callback for the partition of
    direction [d], when that partition is not empty. *)
Definition partition_call (cb : C4ReplicatorDocumentsEndedCallback)
    (d : Dir) (revs : list ReplicatedRev) (ctx : nat) : list Event :=
  match revisions_of d revs with
  | [] => []
  | docs => [EvOnDocumentsEnded cb (isPushing d) docs ctx]
  end.

(** Is the [kC4HostReachable] bit of the status record set? *)
Definition hostReachable (c : C4Replicator) : bool :=
  negb (Z.land (flags (_status c)) kC4HostReachable =? 0)%Z.

(** Is the [kC4Suspended] bit of the status record set? *)
Definition suspended_flag (c : C4Replicator) : bool :=
  negb (Z.land (flags (_status c)) kC4Suspended =? 0)%Z.

(** What [notifyStateChanged] does in state [c]: it posts the status, and
    calls the client's callback when one is registered. *)
Definition notification (c : C4Replicator) : list Event :=
  EvNotifyStateChanged (_status c)
  :: match _onStatusChanged c with
     | Some cb =>
         [EvOnStatusChanged cb (_status c) (callbackContext (_options c))]
     | None => []
     end.

Definition is_notification (e : Event) : bool :=
  match e with
  | EvNotifyStateChanged _ => true
  | _ => false
  end.

(** A stretch of trace that posts nothing, calls no client callback and
    does not touch [_selfRetain]. *)
Definition quiet (tr : list Event) : bool :=
  forallb
    (fun e =>
       negb (is_notification e || is_client_callback e || is_release e))
    tr.

(** The status record right after the engine's report was copied in. *)
Definition updated_status (c : C4Replicator) (reported : C4ReplicatorStatus)
  : C4ReplicatorStatus :=
  with_flags (flags (_status c)) reported.

(** The counter of self-retentions agrees with the pointer. *)
Definition balanced (c : C4Replicator) : Prop :=
  selfRetentions c = b2n (_selfRetain c).

(** What one call can do to the self-retention, and what it posts while
    doing so: nothing at all, take it, give it back while posting Stopped,
    or post a status that is not Stopped. *)
Inductive footprint (c c' : C4Replicator) (tr : list Event) : Prop :=
| fp_untouched :
    _selfRetain c' = _selfRetain c ->
    selfRetentions c' = selfRetentions c ->
    published tr = [] ->
    footprint c c' tr
| fp_retained :
    _selfRetain c' = true ->
    selfRetentions c' = selfRetentions c + 1 - b2n (_selfRetain c) ->
    published tr = [] ->
    footprint c c' tr
| fp_released :
    _selfRetain c' = false ->
    selfRetentions c' = selfRetentions c - b2n (_selfRetain c) ->
    publishes kC4Stopped tr = true ->
    footprint c c' tr
| fp_posted :
    forall (s : C4ReplicatorStatus),
      _selfRetain c' = _selfRetain c ->
      selfRetentions c' = selfRetentions c ->
      published tr = [s] ->
      level s <> kC4Stopped ->
      footprint c c' tr.

(** Does the result of [pendingDocumentIDs] carry an error, that is, does
    the error out-parameter hold a code that is not 0 after the call? *)
Definition carries_error (r : C4SliceResult * option C4Error) : bool :=
  match snd r with
  | Some e => negb (code e =? 0)%Z
  | None => false
  end.

(** No client callback is registered: the state [detach] leaves. *)
Definition detached (c : C4Replicator) : bool :=
  match _onStatusChanged c, _onDocumentsEnded c, _onBlobProgress c with
  | None, None, None => true
  | _, _, _ => false
  end.

(** The trace calls no client callback at all. *)
Definition no_client_callback (tr : list Event) : bool :=
  forallb (fun e => negb (is_client_callback e)) tr.

(** How often the connected hook is called. *)
Fixpoint handleConnected_calls (tr : list Event) : nat :=
  match tr with
  | [] => 0
  | EvHandleConnected :: tr' => S (handleConnected_calls tr')
  | _ :: tr' => handleConnected_calls tr'
  end.

(** The test of [replicatorStatusChanged] for a new connection:
    [_status.level > kC4Connecting && oldLevel <= kC4Connecting]. *)
Definition crosses_connected (oldLevel newLevel : C4ReplicatorActivityLevel)
  : bool :=
  level_ltb kC4Connecting newLevel && level_leb oldLevel kC4Connecting.

(** While an engine instance is referenced, the controller retains
    itself. *)
Definition kept_alive (c : C4Replicator) : Prop :=
  _replicator c <> None -> _selfRetain c = true.


(** The engine calls of a trace: creating, starting, stopping or
    terminating an engine instance. *)
Definition is_engine_call (e : Event) : bool :=
  match e with
  | EvCreateReplicator _ | EvReplicatorStart _ | EvReplicatorStop _
  | EvReplicatorTerminate _ => true
  | _ => false
  end.

(** The flags without the [kC4Suspended] bit. *)
Definition other_flags (c : C4Replicator) : C4ReplicatorStatusFlags :=
  Z.land (flags (_status c)) (Z.lnot kC4Suspended).

(** ** A concrete session, for running the model *)

(** The base class with an engine factory: the handlers are empty, as in
    [virtual void handleConnected() { }]. *)
Definition baseClass : Subclass := {|
  createReplicator := fun _ => 1;
  handleConnected := fun s => s;
  handleStopped := fun s => s
|}.

Definition connectingStatus : C4ReplicatorStatus :=
  mkStatus kC4Connecting noProgress noError 0%Z.

Definition stoppedStatus : C4ReplicatorStatus :=
  mkStatus kC4Stopped (mkProgress 5 10) noError 0%Z.

Definition busyStatus : C4ReplicatorStatus :=
  mkStatus kC4Busy (mkProgress 5 10) noError 0%Z.

Definition checkpointError : C4Error := mkError 1 12.

(** An engine that starts out connecting and a checkpoint store with no
    pending documents. *)
Definition quietWorld : Collaborators := {|
  replicator_status := fun _ => connectingStatus;
  replicator_pendingDocumentIDs := fun _ => mkPendingQuery [] None;
  checkpointer_pendingDocumentIDs := fun _ => mkPendingQuery [] None;
  replicator_isDocumentPending := fun _ _ => (false, None);
  checkpointer_isDocumentPending := fun _ _ => (false, None)
|}.

(** The same, with a checkpoint that cannot be read. *)
Definition brokenWorld : Collaborators := {|
  replicator_status := fun _ => connectingStatus;
  replicator_pendingDocumentIDs := fun _ => mkPendingQuery [] (Some checkpointError);
  checkpointer_pendingDocumentIDs := fun _ => mkPendingQuery [] (Some checkpointError);
  replicator_isDocumentPending := fun _ _ => (false, Some checkpointError);
  checkpointer_isDocumentPending := fun _ _ => (false, Some checkpointError)
|}.

Definition someParameters : C4ReplicatorParameters :=
  mkParameters kC4Continuous kC4Disabled [] (Some 100) (Some 200) (Some 300) 7.

Definition fresh : C4Replicator := construct someParameters.

(** A session that was started and is now running. *)
Definition started : C4Replicator :=
  state_of (@run baseClass quietWorld [OpStart] fresh).

(** A session that was started, then suspended, and whose engine has not
    stopped yet. *)
Definition suspending : C4Replicator :=
  state_of (@run baseClass quietWorld [OpStart; OpSetSuspended true] fresh).

(** ... and after the engine has reported that it stopped. *)
Definition suspended_offline : C4Replicator :=
  state_of (@run baseClass quietWorld
              [OpStart; OpSetSuspended true; OpStatusChanged 1 stoppedStatus]
              fresh).

Definition rev_push_a : ReplicatedRev :=
  mkRev kPushing (mkDocumentEnded "a" "1-aa").
Definition rev_pull_b : ReplicatedRev :=
  mkRev kPulling (mkDocumentEnded "b" "1-bb").
Definition rev_push_c : ReplicatedRev :=
  mkRev kPushing (mkDocumentEnded "c" "2-cc").

(** A session whose engine is busy. *)
Definition busy : C4Replicator :=
  state_of (@run baseClass quietWorld [OpStart; OpStatusChanged 1 busyStatus]
              fresh).

(** An engine with two documents waiting to be pushed. *)
Definition pendingWorld : Collaborators := {|
  replicator_status := fun _ => connectingStatus;
  replicator_pendingDocumentIDs :=
    fun _ => mkPendingQuery ["doc1"%string; "doc2"%string] None;
  checkpointer_pendingDocumentIDs := fun _ => mkPendingQuery [] None;
  replicator_isDocumentPending := fun _ _ => (false, None);
  checkpointer_isDocumentPending := fun _ _ => (false, None)
|}.

(** A push session of a client that registers no callback. *)
Definition noCallbacks : C4ReplicatorParameters :=
  mkParameters kC4Continuous kC4Disabled [] None None None 7.

(** ** Tactics *)

(** Unfold the monad. *)
Ltac ctl_unfold :=
  unfold state_of, trace_of, value_of, LOCK, when, discard, bind, ret, get,
    modify, emit in *.

(** Split on the engine reference or on the next test of the code. *)
Ltac case_split :=
  match goal with
  | |- context [match _replicator ?c with _ => _ end] =>
      let E := fresh "Hrepl" in
      destruct (_replicator c) eqn:E; cbn; rewrite ?E; cbn
  | |- context [if ?x then _ else _] => destruct x eqn:?; cbn
  end.

(** Close a goal about a call that leaves the self-retention alone. *)
Ltac untouched := apply fp_untouched; cbn; trivial.

(** Equalities of bit sets, bit by bit. *)
Ltac bitwise :=
  apply Z.bits_inj'; intros n Hn;
  rewrite ?Z.land_spec, ?Z.lor_spec, ?Z.lnot_spec, ?Z.bits_0 by trivial;
  repeat match goal with
    | |- context [Z.testbit ?a n] => destruct (Z.testbit a n) eqn:?
    end; try reflexivity.

(** Split on every test of the code, innermost first. *)
Ltac explore :=
  repeat (cbn;
          match goal with
          | H : ?x = _ |- context [match ?x with _ => _ end] => rewrite H
          | |- context [match ?x with _ => _ end] =>
              lazymatch x with
              | context [match _ with _ => _ end] => fail
              | _ => destruct x eqn:?
              end
          end);
  cbn.

(** Unfold every member function. *)
Ltac unfold_calls :=
  unfold step, start, _start, setSuspended, setStatusFlag, _suspend,
    _unsuspend, stop, retry, setHostReachable, responseHeaders, status,
    setProperties, detach, pendingDocumentIDs, isDocumentPending,
    replicatorGotHTTPResponse, replicatorStatusChanged, statusChanged_locked,
    replicatorDocumentsEnded, replicatorBlobProgress, call_handleConnected,
    call_handleStopped, statusFlag, notifyStateChanged, selfRetain_assign,
    updateStatusFromReplicator;
  cbn [for_each]; ctl_unfold.

(** ** Properties of the status record *)

Lemma level_eqb_eq : forall a b, level_eqb a b = true <-> a = b.
Proof.
  intros a b; split.
  - destruct a, b; cbv; congruence.
  - intros ->; unfold level_eqb; apply Z.eqb_refl.
Qed.

Lemma level_eqb_neq : forall a b, level_eqb a b = false <-> a <> b.
Proof.
  intros a b; split.
  - intros H E; apply level_eqb_eq in E; congruence.
  - intros H; destruct (level_eqb a b) eqn:E; trivial.
    apply level_eqb_eq in E; contradiction.
Qed.

(** C8.  An engine-reported status replaces the level, the progress and the
    error of the status record and nothing else: the flags keep the value
    they had, no other member of the controller changes and nothing is
    called. *)
Theorem C8_engine_update_keeps_flags :
  forall (c : C4Replicator) (reported : C4ReplicatorStatus),
    let r := updateStatusFromReplicator reported c in
    level (_status (state_of r)) = level reported
    /\ progress (_status (state_of r)) = progress reported
    /\ error (_status (state_of r)) = error reported
    /\ flags (_status (state_of r)) = flags (_status c)
    /\ state_of r = set_status (_status (state_of r)) c
    /\ trace_of r = [].
Proof.
  intros c reported; unfold updateStatusFromReplicator; ctl_unfold; cbn.
  repeat split.
Qed.

(** C10.  [setProperties] replaces the property map of the options at once,
    whatever the state of the controller and also while an engine instance
    is live; the other options, the status record, the engine reference,
    the self-retention, the suspend bookkeeping, the response headers and
    the callbacks stay as they were, and the call does nothing but take and
    drop the lock. *)
Theorem C10_setProperties_replaces_properties :
  forall (c : C4Replicator) (p : AllocedDict),
    let r := setProperties p c in
    properties (_options (state_of r)) = p
    /\ push (_options (state_of r)) = push (_options c)
    /\ pull (_options (state_of r)) = pull (_options c)
    /\ callbackContext (_options (state_of r)) = callbackContext (_options c)
    /\ _status (state_of r) = _status c
    /\ _replicator (state_of r) = _replicator c
    /\ _selfRetain (state_of r) = _selfRetain c
    /\ selfRetentions (state_of r) = selfRetentions c
    /\ _activeWhenSuspended (state_of r) = _activeWhenSuspended c
    /\ _responseHeaders (state_of r) = _responseHeaders c
    /\ _onStatusChanged (state_of r) = _onStatusChanged c
    /\ _onDocumentsEnded (state_of r) = _onDocumentsEnded c
    /\ _onBlobProgress (state_of r) = _onBlobProgress c
    /\ trace_of r = [EvLock; EvUnlock].
Proof.
  intros c p; unfold setProperties; ctl_unfold; cbn.
  repeat split.
Qed.

(** ** [setHostReachable] *)

(** C3, as the spec words it, fails: telling a freshly constructed
    controller that the host is not reachable leaves the flag set. *)
Lemma C3_setHostReachable_counterexample :
  hostReachable (state_of (setHostReachable false fresh)) = true
  /\ hostReachable (state_of (setHostReachable false fresh)) <> false.
Proof. split; [reflexivity | discriminate]. Qed.

(** C3, amended.  In this class [setHostReachable] has an empty body: for
    either boolean and in every state it returns the controller as it was,
    the [kC4HostReachable] flag included, and calls nothing. *)
Theorem C3_setHostReachable_is_noop :
  forall (b : bool) (c : C4Replicator),
    setHostReachable b c = (tt, c, [])
    /\ hostReachable (state_of (setHostReachable b c)) = hostReachable c.
Proof. intros b c; split; reflexivity. Qed.

(** ** [stop] *)

(** C7.  Without an engine instance, [stop] on a controller that is not yet
    stopped sets the level to Stopped, zeroes the progress, posts one
    notification of the new status (which reaches the client's callback
    once when one is registered) and gives back the self-retention; on a
    controller that is already stopped it changes nothing and posts
    nothing. *)
Theorem C7_stop_without_engine :
  forall (c : C4Replicator),
    _replicator c = None ->
    let r := stop c in
    (level (_status c) <> kC4Stopped ->
       level (_status (state_of r)) = kC4Stopped
       /\ progress (_status (state_of r)) = noProgress
       /\ error (_status (state_of r)) = error (_status c)
       /\ flags (_status (state_of r)) = flags (_status c)
       /\ published (trace_of r) = [_status (state_of r)]
       /\ statusChanged_calls (trace_of r) =
            match _onStatusChanged c with
            | Some cb =>
                [(cb, _status (state_of r), callbackContext (_options c))]
            | None => []
            end
       /\ _selfRetain (state_of r) = false
       /\ selfRetentions (state_of r) = selfRetentions c - b2n (_selfRetain c)
       /\ _replicator (state_of r) = None)
    /\ (level (_status c) = kC4Stopped ->
          state_of r = c
          /\ published (trace_of r) = []
          /\ statusChanged_calls (trace_of r) = []
          /\ trace_of r = [EvLock; EvUnlock]).
Proof.
  intros c Hrepl r; subst r.
  unfold stop, notifyStateChanged, selfRetain_assign; ctl_unfold.
  rewrite Hrepl; split; intros Hlevel.
  - apply level_eqb_neq in Hlevel; rewrite Hlevel; cbn.
    destruct (_onStatusChanged c); cbn; repeat split; try rewrite Hrepl; trivial; lia.
  - rewrite Hlevel; cbn; repeat split.
Qed.

(** A suspended session whose engine has stopped is stopped for good; a
    fresh controller ignores [stop]. *)
Lemma C7_stop_without_engine_witness :
  (level (_status (state_of (stop suspended_offline))) = kC4Stopped
   /\ published (trace_of (stop suspended_offline)) =
        [_status (state_of (stop suspended_offline))]
   /\ _selfRetain (state_of (stop suspended_offline)) = false)
  /\ state_of (stop fresh) = fresh.
Proof.
  split.
  - destruct (C7_stop_without_engine suspended_offline eq_refl) as [H _].
    destruct H as (H1 & _ & _ & _ & H5 & _ & H7 & _).
    + discriminate.
    + repeat split; assumption.
  - destruct (C7_stop_without_engine fresh eq_refl) as [_ H].
    destruct H as (H1 & _); [reflexivity | exact H1].
Defined.

(** ** Dispatch of a completion batch *)

Lemma collect_docsEnded_from :
  forall (pushing : bool) (revs : list ReplicatedRev)
         (acc : list C4DocumentEnded),
    fold_left
      (fun docsEnded rev =>
         if Bool.eqb (isPushing (dir rev)) pushing
         then docsEnded ++ [asDocumentEnded rev]
         else docsEnded)
      revs acc
    = acc ++ map asDocumentEnded
               (filter (fun rev => Bool.eqb (isPushing (dir rev)) pushing) revs).
Proof.
  intros pushing revs; induction revs as [| rev revs IH]; intros acc; simpl.
  - now rewrite app_nil_r.
  - rewrite IH.
    destruct (Bool.eqb (isPushing (dir rev)) pushing); simpl; trivial.
    now rewrite <- app_assoc.
Qed.

(** The loop of the source gathers exactly the revisions of one direction,
    in the order of the batch. *)
Lemma collect_docsEnded_revisions_of :
  forall (d : Dir) (revs : list ReplicatedRev),
    collect_docsEnded (isPushing d) revs = revisions_of d revs.
Proof.
  intros d revs; unfold collect_docsEnded, revisions_of.
  now rewrite collect_docsEnded_from.
Qed.

(** A partition keeps the relative order of the batch: splitting the batch
    splits the partition. *)
Lemma revisions_of_app :
  forall (d : Dir) (xs ys : list ReplicatedRev),
    revisions_of d (xs ++ ys) = revisions_of d xs ++ revisions_of d ys.
Proof.
  intros d xs ys; unfold revisions_of.
  now rewrite filter_app, map_app.
Qed.

(** Every revision of the batch lands in exactly one of the partitions. *)
Lemma revisions_of_length :
  forall (revs : list ReplicatedRev),
    List.length (revisions_of kPulling revs)
    + List.length (revisions_of kPushing revs)
    = List.length revs.
Proof.
  induction revs as [| rev revs IH]; trivial.
  unfold revisions_of in *; cbn [filter].
  destruct (dir rev); cbn in *; lia.
Qed.

(** C2, as the spec words it, fails: with one pulled revision between two
    pushed ones, the callback gets the incoming partition first and the
    outgoing one second, not the other way round. *)
Lemma C2_dispatch_order_counterexample :
  trace_of (replicatorDocumentsEnded 1 [rev_push_a; rev_pull_b; rev_push_c]
              started)
  = [EvOnDocumentsEnded 200 false [asDocumentEnded rev_pull_b] 7;
     EvOnDocumentsEnded 200 true
       [asDocumentEnded rev_push_a; asDocumentEnded rev_push_c] 7]
  /\ trace_of (replicatorDocumentsEnded 1 [rev_push_a; rev_pull_b; rev_push_c]
                 started)
     <> partition_call 200 kPushing [rev_push_a; rev_pull_b; rev_push_c] 7
        ++ partition_call 200 kPulling [rev_push_a; rev_pull_b; rev_push_c] 7.
Proof. split; [reflexivity | discriminate]. Qed.

(** C2, amended.  A batch from the current engine instance, with a
    documents-ended callback registered, is split by direction, each part
    in the order of the batch; the callback is called once for each part
    that is not empty, with that part's revisions and the callback context
    of the options, first for the incoming (pulled) part and then for the
    outgoing (pushed) part.  Nothing else happens and the controller is
    unchanged. *)
Theorem C2_batch_dispatched_incoming_then_outgoing :
  forall (c : C4Replicator) (repl : Replicator) (revs : list ReplicatedRev)
         (cb : C4ReplicatorDocumentsEndedCallback),
    is_current repl c = true ->
    _onDocumentsEnded c = Some cb ->
    let r := replicatorDocumentsEnded repl revs c in
    trace_of r
    = partition_call cb kPulling revs (callbackContext (_options c))
      ++ partition_call cb kPushing revs (callbackContext (_options c))
    /\ state_of r = c.
Proof.
  intros c repl revs cb Hcur Hcb r; subst r.
  unfold replicatorDocumentsEnded, partition_call; cbn [for_each].
  change (collect_docsEnded false revs)
    with (collect_docsEnded (isPushing kPulling) revs).
  change (collect_docsEnded true revs)
    with (collect_docsEnded (isPushing kPushing) revs).
  rewrite !collect_docsEnded_revisions_of.
  ctl_unfold; rewrite Hcur; cbn.
  destruct (revisions_of kPulling revs), (revisions_of kPushing revs);
    cbn; rewrite ?Hcb; cbn; split; reflexivity.
Qed.

Lemma C2_batch_dispatched_witness :
  trace_of (replicatorDocumentsEnded 1 [rev_push_a; rev_pull_b; rev_push_c]
              started)
  = partition_call 200 kPulling [rev_push_a; rev_pull_b; rev_push_c] 7
    ++ partition_call 200 kPushing [rev_push_a; rev_pull_b; rev_push_c] 7
  /\ state_of (replicatorDocumentsEnded 1 [rev_push_a; rev_pull_b; rev_push_c]
                 started) = started.
Proof.
  apply (C2_batch_dispatched_incoming_then_outgoing started 1
           [rev_push_a; rev_pull_b; rev_push_c] 200); reflexivity.
Defined.

(** After [detach], or for a batch of an engine instance that is no longer
    the current one, no callback is called. *)
Lemma replicatorDocumentsEnded_silent :
  forall (c : C4Replicator) (repl : Replicator) (revs : list ReplicatedRev),
    is_current repl c = false \/ _onDocumentsEnded c = None ->
    replicatorDocumentsEnded repl revs c = (tt, c, []).
Proof.
  intros c repl revs H.
  unfold replicatorDocumentsEnded; cbn [for_each]; ctl_unfold.
  destruct (is_current repl c) eqn:Hcur; cbn; trivial.
  destruct H as [H | H]; [discriminate |].
  destruct (collect_docsEnded false revs), (collect_docsEnded true revs);
    cbn; rewrite ?H; reflexivity.
Qed.

(** ** The engine's status reports *)

Lemma notifyStateChanged_spec :
  forall (c : C4Replicator), notifyStateChanged c = (tt, c, notification c).
Proof.
  intros c; unfold notifyStateChanged, notification; ctl_unfold.
  destruct (_onStatusChanged c); reflexivity.
Qed.

Lemma published_app :
  forall (xs ys : list Event), published (xs ++ ys) = published xs ++ published ys.
Proof.
  induction xs as [| e xs IH]; intros ys; simpl; trivial.
  destruct e; simpl; rewrite ?IH; trivial.
Qed.

Lemma statusChanged_calls_app :
  forall (xs ys : list Event),
    statusChanged_calls (xs ++ ys)
    = statusChanged_calls xs ++ statusChanged_calls ys.
Proof.
  induction xs as [| e xs IH]; intros ys; simpl; trivial.
  destruct e; simpl; rewrite ?IH; trivial.
Qed.

Lemma quiet_published : forall (tr : list Event), quiet tr = true -> published tr = [].
Proof.
  induction tr as [| e tr IH]; simpl; trivial.
  intros H; apply andb_prop in H as [He Htr].
  destruct e; simpl in *; try discriminate; auto.
Qed.

Lemma quiet_statusChanged_calls :
  forall (tr : list Event), quiet tr = true -> statusChanged_calls tr = [].
Proof.
  induction tr as [| e tr IH]; simpl; trivial.
  intros H; apply andb_prop in H as [He Htr].
  destruct e; simpl in *; try discriminate; auto.
Qed.

Lemma quiet_no_release :
  forall (tr : list Event), quiet tr = true -> ~ In (EvSelfRetain false) tr.
Proof.
  induction tr as [| e tr IH]; simpl; [tauto |].
  intros H; apply andb_prop in H as [He Htr].
  intros [-> | Hin]; [discriminate | now apply IH].
Qed.

Lemma published_notification :
  forall (c : C4Replicator), published (notification c) = [_status c].
Proof. intros c; unfold notification; destruct (_onStatusChanged c); reflexivity. Qed.

Lemma notification_no_release :
  forall (c : C4Replicator), ~ In (EvSelfRetain false) (notification c).
Proof.
  intros c; unfold notification; destruct (_onStatusChanged c); simpl;
    intuition discriminate.
Qed.

Section StatusReports.
Context {SC : Subclass}.

(** A report of an engine instance that is not the current one is
    dropped under the lock. *)
Lemma statusChanged_stale :
  forall (c : C4Replicator) (repl : Replicator) (reported : C4ReplicatorStatus),
    is_current repl c = false ->
    replicatorStatusChanged repl reported c = (tt, c, [EvLock; EvUnlock]).
Proof.
  intros c repl reported Hcur.
  unfold replicatorStatusChanged, statusChanged_locked; ctl_unfold.
  rewrite Hcur; reflexivity.
Qed.

(** The locked block of the handler: it posts nothing and leaves the
    self-retention, the options and the callbacks alone. *)
Lemma statusChanged_locked_shape :
  forall (c : C4Replicator) (repl : Replicator) (reported : C4ReplicatorStatus),
    is_current repl c = true ->
    exists (c1 : C4Replicator) (before : list Event),
      statusChanged_locked repl reported c
      = (Some (level_eqb (level (_status c1)) kC4Stopped), c1, before)
      /\ quiet before = true
      /\ held_after false before = false
      /\ _selfRetain c1 = _selfRetain c
      /\ selfRetentions c1 = selfRetentions c
      /\ _options c1 = _options c
      /\ _onStatusChanged c1 = _onStatusChanged c.
Proof.
  intros c repl reported Hcur.
  unfold statusChanged_locked, updateStatusFromReplicator,
    call_handleConnected, call_handleStopped, statusFlag; ctl_unfold.
  rewrite Hcur; cbn.
  destruct (level_ltb kC4Connecting (level reported)
            && level_leb (level (_status c)) kC4Connecting); cbn;
    match goal with
    | |- context [if level_eqb ?l kC4Stopped then _ else _] =>
        destruct (level_eqb l kC4Stopped) eqn:Hstop
    end; cbn;
    try match goal with
      | |- context [if negb ?b then _ else _] => destruct (negb b)
      end; cbn;
    match goal with
    | |- exists c1 before, (_, ?c', ?tr) = _ /\ _ => exists c', tr
    end;
    (split; [cbn; rewrite ?Hstop; reflexivity |]); cbn; repeat split.
Qed.

(** The whole handler: the locked block, then the notification, then,
    if the level that was posted is Stopped, the release. *)
Lemma statusChanged_shape :
  forall (c : C4Replicator) (repl : Replicator) (reported : C4ReplicatorStatus),
    is_current repl c = true ->
    exists (c1 : C4Replicator) (before : list Event),
      replicatorStatusChanged repl reported c
      = (tt,
         if level_eqb (level (_status c1)) kC4Stopped
         then assign_selfRetain false c1 else c1,
         before ++ notification c1
         ++ (if level_eqb (level (_status c1)) kC4Stopped
             then [EvSelfRetain false] else []))
      /\ quiet before = true
      /\ held_after false before = false
      /\ _selfRetain c1 = _selfRetain c
      /\ selfRetentions c1 = selfRetentions c
      /\ _options c1 = _options c
      /\ _onStatusChanged c1 = _onStatusChanged c.
Proof.
  intros c repl reported Hcur.
  destruct (statusChanged_locked_shape c repl reported Hcur)
    as (c1 & before & Hlocked & Hquiet & Hlock & Hself & Hcount & Hopt & Hcb).
  exists c1, before; repeat split; trivial.
  unfold replicatorStatusChanged, bind at 1.
  rewrite Hlocked.
  unfold selfRetain_assign, bind, when; rewrite notifyStateChanged_spec.
  destruct (level_eqb (level (_status c1)) kC4Stopped); cbn;
    rewrite ?app_nil_r; reflexivity.
Qed.

(** A report of the current engine instance is posted once, and reaches
    the client's callback once when one is registered. *)
Lemma statusChanged_notifies_once :
  forall (c : C4Replicator) (repl : Replicator) (reported : C4ReplicatorStatus),
    is_current repl c = true ->
    let r := replicatorStatusChanged repl reported c in
    published (trace_of r) = [_status (state_of r)]
    /\ statusChanged_calls (trace_of r)
       = match _onStatusChanged c with
         | Some cb =>
             [(cb, _status (state_of r), callbackContext (_options c))]
         | None => []
         end.
Proof.
  intros c repl reported Hcur r; subst r.
  destruct (statusChanged_shape c repl reported Hcur)
    as (c1 & before & -> & Hquiet & _ & _ & _ & Hopt & Hcb).
  unfold state_of, trace_of; cbn [fst snd].
  rewrite !published_app, !statusChanged_calls_app,
    (quiet_published _ Hquiet), (quiet_statusChanged_calls _ Hquiet),
    published_notification.
  unfold notification; rewrite Hcb, Hopt.
  destruct (level_eqb (level (_status c1)) kC4Stopped);
    destruct (_onStatusChanged c); split; reflexivity.
Qed.

(** With handlers that leave the flags alone, as those of the base class
    do, a report of the engine never changes the flags. *)
Lemma statusChanged_keeps_flags :
  forall (c : C4Replicator) (repl : Replicator) (reported : C4ReplicatorStatus),
    (forall s, flags (handleConnected s) = flags s) ->
    (forall s, flags (handleStopped s) = flags s) ->
    flags (_status (state_of (replicatorStatusChanged repl reported c)))
    = flags (_status c).
Proof.
  intros c repl reported Hconnected Hstopped.
  destruct (is_current repl c) eqn:Hcur;
    [| now rewrite (statusChanged_stale c repl reported Hcur)].
  unfold replicatorStatusChanged, statusChanged_locked,
    updateStatusFromReplicator, call_handleConnected, call_handleStopped,
    statusFlag, selfRetain_assign, notifyStateChanged; ctl_unfold.
  rewrite Hcur; cbn.
  destruct (_onStatusChanged c) eqn:Hcb;
    repeat (first [rewrite Hcb | case_split]; cbn);
    rewrite ?Hstopped, ?Hconnected; reflexivity.
Qed.

End StatusReports.

(** ** Self-retention along every sequence of calls *)

Lemma state_of_bind :
  forall (A B : Type) (m : M A) (k : A -> M B) (c : C4Replicator),
    state_of (bind m k c) = state_of (k (value_of (m c)) (state_of (m c))).
Proof.
  intros A B m k c; unfold bind, state_of, value_of.
  destruct (m c) as [[a c1] t1]; cbn.
  destruct (k a c1) as [[b c2] t2]; reflexivity.
Qed.

Section SelfRetention.
Context {SC : Subclass} {CO : Collaborators}.

Lemma _start_footprint :
  forall (c : C4Replicator),
    footprint c (state_of (_start c)) (trace_of (_start c)).
Proof.
  intros c; unfold _start, selfRetain_assign, updateStatusFromReplicator;
    ctl_unfold.
  destruct (_replicator c); cbn; apply fp_retained; cbn; trivial.
Qed.

Lemma start_footprint :
  forall (c : C4Replicator),
    footprint c (state_of (start c)) (trace_of (start c)).
Proof.
  intros c; unfold start, _start, selfRetain_assign,
    updateStatusFromReplicator; ctl_unfold.
  destruct (_replicator c) eqn:Hrepl; cbn; [untouched |].
  rewrite Hrepl; apply fp_retained; cbn; trivial.
Qed.

Lemma setSuspended_footprint :
  forall (b : bool) (c : C4Replicator),
    footprint c (state_of (setSuspended b c)) (trace_of (setSuspended b c)).
Proof.
  intros b c; unfold setSuspended, setStatusFlag, _suspend, _unsuspend,
    _start, selfRetain_assign, updateStatusFromReplicator; ctl_unfold.
  destruct b; cbn; repeat case_split;
    solve [untouched | apply fp_retained; cbn; trivial].
Qed.

Lemma stop_footprint :
  forall (c : C4Replicator),
    footprint c (state_of (stop c)) (trace_of (stop c)).
Proof.
  intros c; unfold stop, notifyStateChanged, selfRetain_assign; ctl_unfold.
  destruct (_replicator c); cbn; [untouched |].
  destruct (level_eqb (level (_status c)) kC4Stopped); cbn; [untouched |].
  destruct (_onStatusChanged c); cbn; apply fp_released; cbn; trivial; lia.
Qed.

Lemma replicatorStatusChanged_footprint :
  forall (repl : Replicator) (reported : C4ReplicatorStatus)
         (c : C4Replicator),
    footprint c (state_of (replicatorStatusChanged repl reported c))
      (trace_of (replicatorStatusChanged repl reported c)).
Proof.
  intros repl reported c.
  destruct (is_current repl c) eqn:Hcur.
  - destruct (statusChanged_shape c repl reported Hcur)
      as (c1 & before & -> & Hquiet & _ & Hself & Hcount & _ & _).
    unfold state_of, trace_of; cbn [fst snd].
    destruct (level_eqb (level (_status c1)) kC4Stopped) eqn:Hstop.
    + apply fp_released; [reflexivity | |].
      * cbn; rewrite Hcount, Hself; lia.
      * unfold publishes.
        rewrite !published_app, (quiet_published _ Hquiet),
          published_notification; cbn.
        now rewrite Hstop.
    + apply (fp_posted _ _ _ (_status c1)); trivial.
      * rewrite app_nil_r, published_app, published_notification.
        now rewrite (quiet_published _ Hquiet).
      * now apply level_eqb_neq.
  - rewrite (statusChanged_stale c repl reported Hcur); untouched.
Qed.

Lemma step_footprint :
  forall (op : Op) (c : C4Replicator),
    footprint c (state_of (step op c)) (trace_of (step op c)).
Proof.
  intros op c; destruct op; cbn [step].
  - apply start_footprint.
  - untouched.
  - untouched.
  - apply setSuspended_footprint.
  - untouched.
  - untouched.
  - apply stop_footprint.
  - untouched.
  - untouched.
  - unfold pendingDocumentIDs; ctl_unfold.
    destruct (fold_left pending_callback _ _) as [enc any].
    destruct (pq_error _); untouched.
  - unfold isDocumentPending; ctl_unfold.
    destruct (_replicator c);
      [destruct (replicator_isDocumentPending _ _) as [pending [e |]]
      | destruct (checkpointer_isDocumentPending _ _) as [pending [e |]]];
      untouched.
  - unfold replicatorGotHTTPResponse; ctl_unfold.
    destruct (is_current repl c); [| untouched].
    destruct (_responseHeaders c); untouched.
  - apply replicatorStatusChanged_footprint.
  - destruct (is_current repl c) eqn:Hcur;
      destruct (_onDocumentsEnded c) eqn:Hcb;
      try (rewrite replicatorDocumentsEnded_silent by auto; untouched).
    unfold replicatorDocumentsEnded; cbn [for_each]; ctl_unfold.
    rewrite Hcur; cbn.
    destruct (collect_docsEnded false revs), (collect_docsEnded true revs);
      cbn; rewrite ?Hcb; cbn; untouched.
  - unfold replicatorBlobProgress; ctl_unfold.
    destruct (is_current repl c); [| untouched].
    destruct (_onBlobProgress c); untouched.
Qed.

Lemma footprint_balanced :
  forall (c c' : C4Replicator) (tr : list Event),
    footprint c c' tr -> balanced c -> balanced c'.
Proof.
  unfold balanced; intros c c' tr [Hs Hn _ | Hs Hn _ | Hs Hn _ | s Hs Hn _ _] Hb;
    rewrite Hn, Hs, ?Hb; destruct (_selfRetain c); cbn; lia.
Qed.

Lemma footprint_stopped_released :
  forall (c c' : C4Replicator) (tr : list Event),
    footprint c c' tr -> balanced c ->
    publishes kC4Stopped tr = true ->
    _selfRetain c' = false /\ selfRetentions c' = 0.
Proof.
  unfold balanced, publishes.
  intros c c' tr [Hs Hn Hp | Hs Hn Hp | Hs Hn _ | s Hs Hn Hp Hl] Hb Hpub.
  - rewrite Hp in Hpub; discriminate.
  - rewrite Hp in Hpub; discriminate.
  - split; [trivial |]. rewrite Hn, Hb; lia.
  - rewrite Hp in Hpub; cbn in Hpub.
    apply level_eqb_neq in Hl; rewrite Hl in Hpub; discriminate.
Qed.

Lemma footprint_kept_unless_stopped :
  forall (c c' : C4Replicator) (tr : list Event),
    footprint c c' tr ->
    publishes kC4Stopped tr = false ->
    _selfRetain c = true ->
    _selfRetain c' = true /\ selfRetentions c' = selfRetentions c.
Proof.
  intros c c' tr [Hs Hn _ | Hs Hn _ | Hs Hn Hp | s Hs Hn _ _] Hpub Hc.
  - rewrite Hs, Hn; auto.
  - rewrite Hs, Hn, Hc; cbn; split; [reflexivity | lia].
  - congruence.
  - rewrite Hs, Hn; auto.
Qed.

Lemma run_balanced :
  forall (ops : list Op) (c : C4Replicator),
    balanced c -> balanced (state_of (run ops c)).
Proof.
  induction ops as [| op ops IH]; intros c Hb; [exact Hb |].
  unfold run in *; cbn [for_each].
  rewrite state_of_bind; apply IH.
  exact (footprint_balanced _ _ _ (step_footprint op c) Hb).
Qed.

Lemma construct_balanced :
  forall (params : C4ReplicatorParameters), balanced (construct params).
Proof. intros params; reflexivity. Qed.

End SelfRetention.

(** C1, as the spec words it, fails for the suspended case: a session is
    started and suspended, and its engine reports Stopped.  The controller
    posts Offline with the Suspended flag set and holds no engine reference
    any more, yet its self-retention is still outstanding. *)
Lemma C1_offline_via_suspend_counterexample :
  published
    (trace_of (@step baseClass quietWorld (OpStatusChanged 1 stoppedStatus)
                 suspending))
  = [mkStatus kC4Offline (mkProgress 5 10) noError 6%Z]
  /\ suspended_flag
       (state_of (@step baseClass quietWorld
                    (OpStatusChanged 1 stoppedStatus) suspending)) = true
  /\ _replicator
       (state_of (@step baseClass quietWorld
                    (OpStatusChanged 1 stoppedStatus) suspending)) = None
  /\ selfRetentions
       (state_of (@step baseClass quietWorld
                    (OpStatusChanged 1 stoppedStatus) suspending)) = 1
  /\ selfRetentions
       (state_of (@step baseClass quietWorld
                    (OpStatusChanged 1 stoppedStatus) suspending)) <> 0.
Proof. repeat split; discriminate. Qed.

(** C1, amended.  After every sequence of calls on a newly constructed
    controller at most one self-retention is outstanding.  A call that
    posts a status of level Stopped leaves none outstanding.  A status
    report of the engine that posts no Stopped status, such as the one that
    takes a suspended session to Offline, leaves the self-retention as it
    was.  No call of any kind gives back a self-retention that is held
    unless it posts a status of level Stopped. *)
Theorem C1_self_retention :
  forall (SC : Subclass) (CO : Collaborators)
         (params : C4ReplicatorParameters) (ops : list Op) (op : Op),
    let c := state_of (run ops (construct params)) in
    let r := step op c in
    selfRetentions c <= 1
    /\ (publishes kC4Stopped (trace_of r) = true ->
        _selfRetain (state_of r) = false /\ selfRetentions (state_of r) = 0)
    /\ (forall (repl : Replicator) (reported : C4ReplicatorStatus),
          op = OpStatusChanged repl reported ->
          publishes kC4Stopped (trace_of r) = false ->
          _selfRetain (state_of r) = _selfRetain c
          /\ selfRetentions (state_of r) = selfRetentions c)
    /\ (publishes kC4Stopped (trace_of r) = false ->
        _selfRetain c = true ->
        _selfRetain (state_of r) = true
        /\ selfRetentions (state_of r) = selfRetentions c).
Proof.
  intros SC CO params ops op c r.
  assert (Hb : balanced c)
    by (apply run_balanced, construct_balanced).
  split; [| split; [| split]];
    [| | | exact (footprint_kept_unless_stopped _ _ _ (step_footprint op c))].
  - rewrite Hb; destruct (_selfRetain c); cbn; lia.
  - intros Hpub.
    exact (footprint_stopped_released _ _ _ (step_footprint op c) Hb Hpub).
  - intros repl reported -> Hpub; subst r; cbn [step] in *.
    destruct (is_current repl c) eqn:Hcur.
    + destruct (statusChanged_shape c repl reported Hcur)
        as (c1 & before & Heq & Hquiet & _ & Hself & Hcount & _ & _).
      rewrite Heq in *; unfold state_of, trace_of in *; cbn [fst snd] in *.
      unfold publishes in Hpub.
      rewrite published_app, (quiet_published _ Hquiet), published_app,
        published_notification in Hpub; cbn in Hpub.
      apply orb_false_elim in Hpub as [Hstop _].
      rewrite Hstop; auto.
    + rewrite (statusChanged_stale c repl reported Hcur); auto.
Qed.

Lemma C1_self_retention_witness :
  selfRetentions started <= 1
  /\ selfRetentions
       (state_of (@step baseClass quietWorld (OpStatusChanged 1 stoppedStatus)
                    started)) = 0
  /\ selfRetentions
       (state_of (@step baseClass quietWorld (OpStatusChanged 1 stoppedStatus)
                    suspending)) = selfRetentions suspending
  /\ _selfRetain
       (state_of (@step baseClass quietWorld (OpSetProperties []) started))
     = true.
Proof.
  split; [| split; [| split]].
  - exact (proj1 (C1_self_retention baseClass quietWorld someParameters
                    [OpStart] OpStart)).
  - apply (C1_self_retention baseClass quietWorld someParameters
             [OpStart] (OpStatusChanged 1 stoppedStatus)).
    reflexivity.
  - apply (proj1 (proj2 (proj2 (C1_self_retention baseClass quietWorld
                                  someParameters
                                  [OpStart; OpSetSuspended true]
                                  (OpStatusChanged 1 stoppedStatus))))
             1 stoppedStatus); reflexivity.
  - apply (proj2 (proj2 (proj2 (C1_self_retention baseClass quietWorld
                                  someParameters [OpStart]
                                  (OpSetProperties [])))));
      reflexivity.
Defined.

Section StoppedReports.
Context {SC : Subclass}.

(** C5.  When the current engine instance reports Stopped, the controller
    terminates it and drops its reference.  With the Suspended flag set
    it then posts the level Offline and the stopped hook is not called;
    without the flag the stopped hook is called, under the lock and
    before the notification, and the status it leaves is the one that is
    posted. *)
Theorem C5_engine_reports_stopped :
  forall (c : C4Replicator) (repl : Replicator)
         (reported : C4ReplicatorStatus),
    is_current repl c = true ->
    level reported = kC4Stopped ->
    let r := replicatorStatusChanged repl reported c in
    (suspended_flag c = true ->
       trace_of r
       = [EvLock; EvReplicatorTerminate repl; EvUnlock]
         ++ notification (state_of r)
       /\ _replicator (state_of r) = None
       /\ _status (state_of r)
          = with_level kC4Offline (updated_status c reported)
       /\ published (trace_of r)
          = [with_level kC4Offline (updated_status c reported)]
       /\ existsb is_handleStopped (trace_of r) = false)
    /\ (suspended_flag c = false ->
          trace_of r
          = [EvLock; EvReplicatorTerminate repl; EvHandleStopped; EvUnlock]
            ++ notification (state_of r)
            ++ (if level_eqb
                     (level (handleStopped (updated_status c reported)))
                     kC4Stopped
                then [EvSelfRetain false] else [])
          /\ _replicator (state_of r) = None
          /\ _status (state_of r)
             = handleStopped (updated_status c reported)
          /\ published (trace_of r)
             = [handleStopped (updated_status c reported)]).
Proof.
  intros c repl reported Hcur Hlevel r; subst r.
  unfold replicatorStatusChanged, statusChanged_locked,
    updateStatusFromReplicator, call_handleConnected, call_handleStopped,
    statusFlag, selfRetain_assign, notifyStateChanged, notification,
    suspended_flag, updated_status; ctl_unfold.
  split; intros Hflag;
    repeat (first [rewrite Hcur | rewrite Hlevel | rewrite Hflag]; cbn).
  - destruct (_onStatusChanged c) eqn:Hcb; cbn; rewrite ?Hcb; repeat split.
  - destruct (level_eqb
                (level (handleStopped (with_flags (flags (_status c)) reported)))
                kC4Stopped) eqn:Hstop;
      cbn; destruct (_onStatusChanged c) eqn:Hcb; cbn; rewrite ?Hcb;
      repeat split.
Qed.

(** C6.  When the handler of an engine status report gives back the
    self-retention, the status it posted has level Stopped, and the
    release is the last thing it does: the notification, with the call
    of the client's callback, lies wholly before it, and nothing before
    the notification touches the self-retention. *)
Theorem C6_release_after_notification :
  forall (c : C4Replicator) (repl : Replicator)
         (reported : C4ReplicatorStatus),
    In (EvSelfRetain false)
       (trace_of (replicatorStatusChanged repl reported c)) ->
    let r := replicatorStatusChanged repl reported c in
    exists (before : list Event),
      trace_of r
      = before ++ notification (state_of r) ++ [EvSelfRetain false]
      /\ quiet before = true
      /\ held_after false before = false
      /\ published (trace_of r) = [_status (state_of r)]
      /\ level (_status (state_of r)) = kC4Stopped.
Proof.
  intros c repl reported Hin r; subst r.
  destruct (is_current repl c) eqn:Hcur.
  - destruct (statusChanged_shape c repl reported Hcur)
      as (c1 & before & Heq & Hquiet & Hheld & _ & _ & _ & _).
    rewrite Heq in *; unfold state_of, trace_of in *; cbn [fst snd] in *.
    destruct (level_eqb (level (_status c1)) kC4Stopped) eqn:Hstop.
    + exists before; repeat split; trivial.
      * rewrite !published_app, (quiet_published _ Hquiet),
          published_notification; reflexivity.
      * now apply level_eqb_eq.
    + exfalso.
      apply in_app_or in Hin as [Hin | Hin];
        [exact (quiet_no_release _ Hquiet Hin) |].
      rewrite app_nil_r in Hin.
      exact (notification_no_release _ Hin).
  - rewrite (statusChanged_stale c repl reported Hcur) in Hin.
    cbn in Hin; intuition discriminate.
Qed.

End StoppedReports.

Lemma C5_engine_reports_stopped_witness :
  published
    (trace_of (@replicatorStatusChanged baseClass 1 stoppedStatus suspending))
  = [with_level kC4Offline (updated_status suspending stoppedStatus)]
  /\ published
       (trace_of (@replicatorStatusChanged baseClass 1 stoppedStatus started))
     = [updated_status started stoppedStatus].
Proof.
  split.
  - destruct (@C5_engine_reports_stopped baseClass suspending 1 stoppedStatus
                eq_refl eq_refl) as [H _].
    destruct (H eq_refl) as (_ & _ & _ & Hpub & _); exact Hpub.
  - destruct (@C5_engine_reports_stopped baseClass started 1 stoppedStatus
                eq_refl eq_refl) as [_ H].
    destruct (H eq_refl) as (_ & _ & _ & Hpub); exact Hpub.
Defined.

Lemma C6_release_after_notification_witness :
  exists (before : list Event),
    trace_of (@replicatorStatusChanged baseClass 1 stoppedStatus started)
    = before
      ++ notification
           (state_of (@replicatorStatusChanged baseClass 1 stoppedStatus started))
      ++ [EvSelfRetain false]
    /\ quiet before = true
    /\ held_after false before = false
    /\ published
         (trace_of (@replicatorStatusChanged baseClass 1 stoppedStatus started))
       = [_status
            (state_of (@replicatorStatusChanged baseClass 1 stoppedStatus
                         started))]
    /\ level
         (_status
            (state_of (@replicatorStatusChanged baseClass 1 stoppedStatus
                         started)))
       = kC4Stopped.
Proof.
  apply (@C6_release_after_notification baseClass started 1 stoppedStatus).
  cbn; auto 10.
Defined.

(** ** The lock and the client's callbacks *)

Lemma callback_under_lock_app :
  forall (xs ys : list Event) (held : bool),
    callback_under_lock held (xs ++ ys)
    = callback_under_lock held xs
      || callback_under_lock (held_after held xs) ys.
Proof.
  induction xs as [| e xs IH]; intros ys held; [reflexivity |].
  destruct e; cbn; rewrite IH; cbn; trivial;
    now rewrite orb_assoc.
Qed.

Lemma quiet_no_callback :
  forall (tr : list Event) (held : bool),
    quiet tr = true -> callback_under_lock held tr = false.
Proof.
  induction tr as [| e tr IH]; intros held H; [reflexivity |].
  cbn in H; apply andb_prop in H as [He Htr].
  destruct e; cbn in *; try discriminate; rewrite ?andb_false_r; cbn; auto.
Qed.

Lemma notification_unlocked :
  forall (c : C4Replicator),
    callback_under_lock false (notification c) = false
    /\ held_after false (notification c) = false.
Proof.
  intros c; unfold notification; destruct (_onStatusChanged c); split;
    reflexivity.
Qed.

(** The direct-to-Stopped path of [stop] calls [notifyStateChanged] inside
    the scope of its lock guard: with a status-changed callback registered,
    the callback runs while [_mutex] is held. *)
Lemma stop_calls_back_under_lock :
  forall (c : C4Replicator) (cb : C4ReplicatorStatusChangedCallback),
    _replicator c = None ->
    level (_status c) <> kC4Stopped ->
    _onStatusChanged c = Some cb ->
    callback_under_lock false (trace_of (stop c)) = true.
Proof.
  intros c cb Hrepl Hlevel Hcb.
  unfold stop, notifyStateChanged, selfRetain_assign; ctl_unfold.
  apply level_eqb_neq in Hlevel.
  rewrite Hrepl, Hlevel; cbn; rewrite Hcb; reflexivity.
Qed.

(** C4, evaluated where the code breaks it: [stop] on a suspended session
    whose engine is gone.  The status-changed callback is called between
    taking and dropping the lock. *)
Theorem C4_stop_calls_back_under_lock :
  trace_of (stop suspended_offline)
  = [EvLock;
     EvNotifyStateChanged (mkStatus kC4Stopped noProgress noError 6%Z);
     EvOnStatusChanged 100 (mkStatus kC4Stopped noProgress noError 6%Z) 7;
     EvSelfRetain false;
     EvUnlock]
  /\ callback_under_lock false (trace_of (stop suspended_offline)) = true.
Proof. split; reflexivity. Qed.

Section LockDiscipline.
Context {SC : Subclass} {CO : Collaborators}.

(** The handler of an engine status report drops the lock before it
    notifies: the path that [stop] fails to follow. *)
Lemma replicatorStatusChanged_unlocked :
  forall (c : C4Replicator) (repl : Replicator)
         (reported : C4ReplicatorStatus),
    callback_under_lock false
      (trace_of (replicatorStatusChanged repl reported c)) = false.
Proof.
  intros c repl reported.
  destruct (is_current repl c) eqn:Hcur.
  - destruct (statusChanged_shape c repl reported Hcur)
      as (c1 & before & -> & Hquiet & Hheld & _).
    unfold trace_of; cbn [snd].
    rewrite callback_under_lock_app, (quiet_no_callback _ _ Hquiet), Hheld.
    rewrite callback_under_lock_app.
    destruct (notification_unlocked c1) as [-> ->].
    destruct (level_eqb (level (_status c1)) kC4Stopped); reflexivity.
  - now rewrite (statusChanged_stale c repl reported Hcur).
Qed.

(** Every other call keeps the rule: no client callback runs while the
    lock is held. *)
Lemma step_unlocked_callbacks :
  forall (op : Op) (c : C4Replicator),
    op <> OpStop ->
    callback_under_lock false (trace_of (step op c)) = false.
Proof.
  intros op c Hop; destruct op; cbn [step]; try congruence.
  - unfold start, _start, selfRetain_assign, updateStatusFromReplicator;
      ctl_unfold; repeat case_split; reflexivity.
  - reflexivity.
  - reflexivity.
  - unfold setSuspended, setStatusFlag, _suspend, _unsuspend, _start,
      selfRetain_assign, updateStatusFromReplicator; ctl_unfold.
    destruct suspended; cbn; repeat case_split; reflexivity.
  - reflexivity.
  - reflexivity.
  - reflexivity.
  - reflexivity.
  - unfold pendingDocumentIDs; ctl_unfold.
    destruct (fold_left pending_callback _ _) as [enc any].
    destruct (pq_error _); reflexivity.
  - unfold isDocumentPending; ctl_unfold.
    destruct (_replicator c);
      [destruct (replicator_isDocumentPending _ _) as [pending [e |]]
      | destruct (checkpointer_isDocumentPending _ _) as [pending [e |]]];
      reflexivity.
  - unfold replicatorGotHTTPResponse; ctl_unfold.
    destruct (is_current repl c); [| reflexivity].
    destruct (_responseHeaders c); reflexivity.
  - apply replicatorStatusChanged_unlocked.
  - destruct (is_current repl c) eqn:Hcur;
      destruct (_onDocumentsEnded c) eqn:Hcb;
      try (rewrite replicatorDocumentsEnded_silent by auto; reflexivity).
    unfold replicatorDocumentsEnded; cbn [for_each]; ctl_unfold.
    rewrite Hcur; cbn.
    destruct (collect_docsEnded false revs), (collect_docsEnded true revs);
      cbn; rewrite ?Hcb; reflexivity.
  - unfold replicatorBlobProgress; ctl_unfold.
    destruct (is_current repl c); [| reflexivity].
    destruct (_onBlobProgress c); reflexivity.
Qed.

End LockDiscipline.

(** ** Pending documents *)

Lemma pending_callback_fold :
  forall (docs : list string) (enc : list string) (any : bool),
    fold_left pending_callback docs (enc, any)
    = (enc ++ docs, match docs with [] => any | _ :: _ => true end).
Proof.
  induction docs as [| d docs IH]; intros enc any; cbn.
  - now rewrite app_nil_r.
  - unfold pending_callback at 2; cbn [fst].
    rewrite IH, <- app_assoc; cbn. destruct docs; reflexivity.
Qed.

Section PendingDocuments.
Context {CO : Collaborators}.

(** A failed query gives the null slice; its error reaches the caller
    only through an out-parameter that is not null. *)
Lemma pendingDocumentIDs_failed :
  forall (c : C4Replicator) (outErr : option C4Error) (e : C4Error),
    pq_error (pending_query c) = Some e ->
    pendingDocumentIDs outErr c
    = ((NullSlice, write_error e outErr), c, [EvLock; EvUnlock]).
Proof.
  intros c outErr e He; unfold pendingDocumentIDs; ctl_unfold.
  rewrite pending_callback_fold, He; reflexivity.
Qed.

(** A query that succeeds gives the encoded array of the pending
    documents, or the null slice when there is none; it leaves the
    out-parameter as the caller passed it. *)
Lemma pendingDocumentIDs_succeeded :
  forall (c : C4Replicator) (outErr : option C4Error),
    pq_error (pending_query c) = None ->
    pendingDocumentIDs outErr c
    = ((match pq_docs (pending_query c) with
        | [] => NullSlice
        | docs => EncodedArray docs
        end, outErr), c, [EvLock; EvUnlock]).
Proof.
  intros c outErr He; unfold pendingDocumentIDs; ctl_unfold.
  rewrite pending_callback_fold, He.
  destruct (pq_docs (pending_query c)); reflexivity.
Qed.

End PendingDocuments.

(** C9, as the spec words it, fails.  Called without an error out-parameter,
    a query that fails and a query that finds no pending document give the
    same result.  Called with an out-parameter that still holds an earlier
    error, they give the same result again, and the result of the query
    that succeeded carries that error. *)
Lemma C9_failure_like_emptiness_counterexample :
  pq_error (@pending_query brokenWorld fresh) = Some checkpointError
  /\ @pending_query quietWorld fresh = mkPendingQuery [] None
  /\ value_of (@pendingDocumentIDs brokenWorld None fresh)
     = value_of (@pendingDocumentIDs quietWorld None fresh)
  /\ value_of (@pendingDocumentIDs brokenWorld (Some checkpointError) fresh)
     = value_of (@pendingDocumentIDs quietWorld (Some checkpointError) fresh)
  /\ carries_error
       (value_of (@pendingDocumentIDs quietWorld (Some checkpointError) fresh))
     = true.
Proof. repeat split. Qed.

(** C9, amended.  Both a failed query and a query without pending documents
    return the null slice.  When the caller passes an error out-parameter
    that holds no error, the failed query leaves its error there and the
    empty query leaves the out-parameter untouched, so that the two results
    differ and only the first carries an error. *)
Theorem C9_failure_told_from_emptiness :
  forall (failing succeeding : Collaborators) (c : C4Replicator)
         (e0 e : C4Error),
    code e0 = 0%Z ->
    code e <> 0%Z ->
    pq_error (@pending_query failing c) = Some e ->
    @pending_query succeeding c = mkPendingQuery [] None ->
    value_of (@pendingDocumentIDs failing (Some e0) c) = (NullSlice, Some e)
    /\ value_of (@pendingDocumentIDs succeeding (Some e0) c)
       = (NullSlice, Some e0)
    /\ carries_error (value_of (@pendingDocumentIDs failing (Some e0) c)) = true
    /\ carries_error (value_of (@pendingDocumentIDs succeeding (Some e0) c))
       = false
    /\ value_of (@pendingDocumentIDs failing (Some e0) c)
       <> value_of (@pendingDocumentIDs succeeding (Some e0) c).
Proof.
  intros failing succeeding c e0 e He0 He Hfail Hok.
  rewrite (@pendingDocumentIDs_failed failing c (Some e0) e Hfail).
  rewrite (@pendingDocumentIDs_succeeded succeeding c (Some e0))
    by (rewrite Hok; reflexivity).
  rewrite Hok; unfold value_of, carries_error; cbn.
  apply Z.eqb_neq in He as He'; rewrite He'.
  rewrite He0; cbn; repeat split.
  intros Heq; injection Heq as ->; contradiction.
Qed.

Lemma C9_failure_told_from_emptiness_witness :
  value_of (@pendingDocumentIDs brokenWorld (Some noError) fresh)
  = (NullSlice, Some checkpointError)
  /\ value_of (@pendingDocumentIDs quietWorld (Some noError) fresh)
     = (NullSlice, Some noError)
  /\ carries_error
       (value_of (@pendingDocumentIDs brokenWorld (Some noError) fresh)) = true
  /\ carries_error
       (value_of (@pendingDocumentIDs quietWorld (Some noError) fresh)) = false
  /\ value_of (@pendingDocumentIDs brokenWorld (Some noError) fresh)
     <> value_of (@pendingDocumentIDs quietWorld (Some noError) fresh).
Proof.
  apply (C9_failure_told_from_emptiness brokenWorld quietWorld fresh noError
           checkpointError); [reflexivity | discriminate | reflexivity
                             | reflexivity].
Defined.

(** ** Two sessions, run from start to end *)

(** A continuous push: the engine connects, gets busy with progress 5 of
    10, then stops with an error.  The client hears of the stop once, with
    the error, and the self-retention is given back. *)
Example session_runs_then_stops :
  _status
    (state_of (@run baseClass quietWorld
                 [OpStart; OpStatusChanged 1 connectingStatus;
                  OpStatusChanged 1 busyStatus] fresh))
  = mkStatus kC4Busy (mkProgress 5 10) noError 2%Z
  /\ statusChanged_calls
       (trace_of (@replicatorStatusChanged baseClass 1
                    (mkStatus kC4Stopped (mkProgress 5 10) checkpointError 0%Z)
                    (state_of (@run baseClass quietWorld
                                 [OpStart; OpStatusChanged 1 connectingStatus;
                                  OpStatusChanged 1 busyStatus] fresh))))
     = [(100, mkStatus kC4Stopped (mkProgress 5 10) checkpointError 2%Z, 7)]
  /\ selfRetentions
       (state_of (@run baseClass quietWorld
                    [OpStart; OpStatusChanged 1 connectingStatus;
                     OpStatusChanged 1 busyStatus;
                     OpStatusChanged 1
                       (mkStatus kC4Stopped (mkProgress 5 10) checkpointError
                          0%Z)] fresh))
     = 0.
Proof. repeat split. Qed.

(** Suspending a busy session asks the engine to stop; lifting the
    suspension once the engine is gone makes a new engine instance and
    starts it. *)
Example session_suspends_then_resumes :
  trace_of (@setSuspended baseClass quietWorld true
              (state_of (@run baseClass quietWorld
                           [OpStart; OpStatusChanged 1 busyStatus] fresh)))
  = [EvLock; EvReplicatorStop 1; EvUnlock]
  /\ _activeWhenSuspended suspending = true
  /\ trace_of (@setSuspended baseClass quietWorld false suspended_offline)
     = [EvLock; EvCreateReplicator 1; EvSelfRetain true; EvReplicatorStart 1;
        EvUnlock]
  /\ selfRetentions
       (state_of (@setSuspended baseClass quietWorld false suspended_offline))
     = 1.
Proof. repeat split. Qed.

(** ** Status flags *)

Lemma land_lor_same : forall f g : Z, Z.land (Z.lor f g) g = g.
Proof. intros f g; bitwise. Qed.

Lemma land_land_lnot_same : forall f g : Z, Z.land (Z.land f (Z.lnot g)) g = 0%Z.
Proof. intros f g; bitwise. Qed.

Lemma lor_lor_same : forall f g : Z, Z.lor (Z.lor f g) g = Z.lor f g.
Proof. intros f g; bitwise. Qed.

Lemma land_lnot_twice :
  forall f g : Z, Z.land (Z.land f (Z.lnot g)) (Z.lnot g) = Z.land f (Z.lnot g).
Proof. intros f g; bitwise. Qed.

Lemma land_lor_disjoint :
  forall f g h : Z, Z.land h g = 0%Z -> Z.land (Z.lor f g) h = Z.land f h.
Proof.
  intros f g h H; apply Z.bits_inj'; intros n Hn.
  assert (Hb : Z.testbit (Z.land h g) n = false) by (rewrite H; apply Z.bits_0).
  rewrite Z.land_spec in Hb.
  rewrite !Z.land_spec, Z.lor_spec.
  destruct (Z.testbit f n), (Z.testbit g n), (Z.testbit h n);
    cbn in *; congruence.
Qed.

Lemma land_lnot_disjoint :
  forall f g h : Z,
    Z.land h g = 0%Z -> Z.land (Z.land f (Z.lnot g)) h = Z.land f h.
Proof.
  intros f g h H; apply Z.bits_inj'; intros n Hn.
  assert (Hb : Z.testbit (Z.land h g) n = false) by (rewrite H; apply Z.bits_0).
  rewrite Z.land_spec in Hb.
  rewrite !Z.land_spec, Z.lnot_spec by trivial.
  destruct (Z.testbit f n), (Z.testbit g n), (Z.testbit h n);
    cbn in *; congruence.
Qed.

Lemma lor_then_clear :
  forall f g : Z, Z.land f g = 0%Z -> Z.land (Z.lor f g) (Z.lnot g) = f.
Proof.
  intros f g H; apply Z.bits_inj'; intros n Hn.
  assert (Hb : Z.testbit (Z.land f g) n = false) by (rewrite H; apply Z.bits_0).
  rewrite Z.land_spec in Hb.
  rewrite !Z.land_spec, Z.lor_spec, Z.lnot_spec by trivial.
  destruct (Z.testbit f n), (Z.testbit g n); cbn in *; congruence.
Qed.

Lemma lor_then_clear_lnot :
  forall f g : Z,
    Z.land (Z.lor f g) (Z.lnot g) = Z.land f (Z.lnot g).
Proof. intros f g; bitwise. Qed.

(** The flags that [setStatusFlag] computes. *)
Lemma setStatusFlag_flags :
  forall (flag : C4ReplicatorStatusFlags) (on : bool) (c : C4Replicator),
    flags (_status (state_of (setStatusFlag flag on c)))
    = if on then Z.lor (flags (_status c)) flag
      else Z.land (flags (_status c)) (Z.lnot flag).
Proof.
  intros flag on c; unfold setStatusFlag; ctl_unfold.
  destruct on; cbn;
    match goal with
    | |- context [if (?a =? ?b)%Z then _ else _] =>
        destruct (a =? b)%Z eqn:E
    end; cbn; trivial; apply Z.eqb_eq in E; congruence.
Qed.

(** X1.  [setStatusFlag] sets or clears exactly the bits of the flag: afterwards
    the bits of [flag] are all set (or all clear), every bit outside [flag]
    is as before, and the call answers [true] exactly when the flags
    changed; when it answers [false] the controller is untouched. *)
Theorem setStatusFlag_sets_the_flag :
  forall (flag : C4ReplicatorStatusFlags) (on : bool) (c : C4Replicator),
    let r := setStatusFlag flag on c in
    Z.land (flags (_status (state_of r))) flag = (if on then flag else 0%Z)
    /\ (forall other : C4ReplicatorStatusFlags,
          Z.land other flag = 0%Z ->
          Z.land (flags (_status (state_of r))) other
          = Z.land (flags (_status c)) other)
    /\ value_of r
       = negb (flags (_status (state_of r)) =? flags (_status c))%Z
    /\ (value_of r = false -> state_of r = c)
    /\ state_of r = set_status (with_flags (flags (_status (state_of r)))
                                  (_status c)) c
    /\ trace_of r = [].
Proof.
  intros flag on c r.
  pose proof (setStatusFlag_flags flag on c) as Hflags; fold r in Hflags.
  split; [| split; [| split; [| split; [| split]]]].
  - rewrite Hflags; destruct on;
      [apply land_lor_same | apply land_land_lnot_same].
  - intros other Hother; rewrite Hflags; destruct on;
      [now apply land_lor_disjoint | now apply land_lnot_disjoint].
  - rewrite Hflags; subst r; unfold setStatusFlag; ctl_unfold.
    destruct on; cbn;
      match goal with
      | |- context [if (?a =? ?b)%Z then _ else _] =>
          destruct (a =? b)%Z eqn:E
      end; cbn; rewrite ?E; reflexivity.
  - subst r; unfold setStatusFlag; ctl_unfold.
    destruct on; cbn;
      match goal with
      | |- context [if (?a =? ?b)%Z then _ else _] =>
          destruct (a =? b)%Z eqn:E
      end; cbn; congruence.
  - subst r; unfold setStatusFlag; ctl_unfold.
    destruct on; cbn;
      match goal with
      | |- context [if (?a =? ?b)%Z then _ else _] =>
          destruct (a =? b)%Z eqn:E
      end; cbn; trivial;
      destruct c as [o r s a h sr c1 c2 c3 n]; destruct s; reflexivity.
  - subst r; unfold setStatusFlag; ctl_unfold.
    destruct on; cbn;
      match goal with
      | |- context [if (?a =? ?b)%Z then _ else _] =>
          destruct (a =? b)%Z eqn:E
      end; reflexivity.
Qed.

(** ** Suspending and resuming *)

Section Suspension.
Context {SC : Subclass} {CO : Collaborators}.

Lemma setSuspended_flags :
  forall (b : bool) (c : C4Replicator),
    flags (_status (state_of (setSuspended b c)))
    = if b then Z.lor (flags (_status c)) kC4Suspended
      else Z.land (flags (_status c)) (Z.lnot kC4Suspended).
Proof.
  intros b c; unfold setSuspended, setStatusFlag, _suspend, _unsuspend,
    _start, selfRetain_assign, updateStatusFromReplicator; ctl_unfold.
  destruct b; cbn; repeat case_split; trivial;
    match goal with
    | H : (_ =? _)%Z = true |- _ => apply Z.eqb_eq in H; symmetry; assumption
    end.
Qed.

(** A call that finds the flag as it wants it does nothing. *)
Lemma setSuspended_unchanged :
  forall (b : bool) (c : C4Replicator),
    (if b then Z.lor (flags (_status c)) kC4Suspended
     else Z.land (flags (_status c)) (Z.lnot kC4Suspended))
    = flags (_status c) ->
    setSuspended b c = (tt, c, [EvLock; EvUnlock]).
Proof.
  intros b c H; unfold setSuspended, setStatusFlag; ctl_unfold.
  destruct b; cbn; apply Z.eqb_eq in H; cbn in H; rewrite H; reflexivity.
Qed.

(** X2.  After [setSuspended b] the Suspended flag is [b], whatever the state
    and whichever path the call took, and no other flag has changed. *)
Theorem setSuspended_sets_the_flag :
  forall (b : bool) (c : C4Replicator),
    suspended_flag (state_of (setSuspended b c)) = b
    /\ other_flags (state_of (setSuspended b c)) = other_flags c.
Proof.
  intros b c; unfold suspended_flag, other_flags.
  rewrite setSuspended_flags; destruct b; split.
  - now rewrite land_lor_same.
  - apply land_lor_disjoint. reflexivity.
  - now rewrite land_land_lnot_same.
  - apply land_lnot_twice.
Qed.

(** X3.  A second [setSuspended] with the same argument does nothing: it
    takes and drops the lock and leaves the controller as it is. *)
Theorem setSuspended_twice :
  forall (b : bool) (c : C4Replicator),
    setSuspended b (state_of (setSuspended b c))
    = (tt, state_of (setSuspended b c), [EvLock; EvUnlock]).
Proof.
  intros b c; apply setSuspended_unchanged.
  rewrite setSuspended_flags; destruct b;
    [apply lor_lor_same | apply land_lnot_twice].
Qed.

Lemma not_suspended_land :
  forall (c : C4Replicator),
    suspended_flag c = false ->
    Z.land (flags (_status c)) kC4Suspended = 0%Z.
Proof.
  unfold suspended_flag; intros c H.
  apply negb_false_iff in H; now apply Z.eqb_eq in H.
Qed.

Lemma not_suspended_lor :
  forall (c : C4Replicator),
    suspended_flag c = false ->
    (Z.lor (flags (_status c)) kC4Suspended =? flags (_status c))%Z = false.
Proof.
  intros c H; apply not_suspended_land in H.
  apply Z.eqb_neq; intros E.
  pose proof (land_lor_same (flags (_status c)) kC4Suspended) as L.
  rewrite E, H in L; discriminate.
Qed.

Lemma suspended_land_lnot :
  forall (c : C4Replicator),
    suspended_flag c = true ->
    (Z.land (flags (_status c)) (Z.lnot kC4Suspended) =? flags (_status c))%Z
    = false.
Proof.
  unfold suspended_flag; intros c H.
  apply Z.eqb_neq; intros E.
  pose proof (land_land_lnot_same (flags (_status c)) kC4Suspended) as L.
  rewrite E in L; rewrite L in H; discriminate.
Qed.

(** Suspending a session of level Connecting or higher asks the engine to
    stop and remembers that the session was active. *)
Lemma setSuspended_active :
  forall (c : C4Replicator) (r : Replicator),
    _replicator c = Some r ->
    suspended_flag c = false ->
    level_leb kC4Connecting (level (_status c)) = true ->
    setSuspended true c
    = (tt,
       set_activeWhenSuspended true
         (set_status
            (with_flags (Z.lor (flags (_status c)) kC4Suspended) (_status c))
            c),
       [EvLock; EvReplicatorStop r; EvUnlock]).
Proof.
  intros c r Hrepl Hflag Hlevel.
  apply not_suspended_lor in Hflag.
  unfold setSuspended, setStatusFlag, _suspend; ctl_unfold; cbn.
  cbn in Hflag; rewrite Hflag; cbn; rewrite Hlevel; cbn; rewrite Hrepl.
  reflexivity.
Qed.

(** Lifting the suspension of a session that was active and has gone
    Offline without an engine starts a new engine instance. *)
Lemma setSuspended_resumes :
  forall (c : C4Replicator),
    _replicator c = None ->
    suspended_flag c = true ->
    level (_status c) = kC4Offline ->
    _activeWhenSuspended c = true ->
    let c0 :=
      set_status
        (with_flags (Z.land (flags (_status c)) (Z.lnot kC4Suspended))
           (_status c)) c in
    let r := createReplicator c0 in
    setSuspended false c
    = (tt,
       set_responseHeaders None
         (set_status
            (with_flags (flags (_status c0)) (replicator_status r))
            (assign_selfRetain true (set_replicator (Some r) c0))),
       [EvLock; EvCreateReplicator r; EvSelfRetain true; EvReplicatorStart r;
        EvUnlock]).
Proof.
  intros c Hrepl Hflag Hlevel Hactive c0 r; subst c0 r.
  apply suspended_land_lnot in Hflag.
  unfold setSuspended, setStatusFlag, _unsuspend, _start, selfRetain_assign,
    updateStatusFromReplicator; ctl_unfold; cbn.
  cbn in Hflag; rewrite Hflag; cbn; rewrite Hlevel, Hactive; cbn.
  rewrite Hrepl; cbn. reflexivity.
Qed.

(** A suspended session goes Offline when its engine stops, and only the
    status and the engine reference change. *)
Lemma statusChanged_suspended_stop :
  forall (c : C4Replicator) (repl : Replicator) (reported : C4ReplicatorStatus),
    is_current repl c = true ->
    level reported = kC4Stopped ->
    suspended_flag c = true ->
    state_of (replicatorStatusChanged repl reported c)
    = set_status (with_level kC4Offline (updated_status c reported))
        (set_replicator None c).
Proof.
  intros c repl reported Hcur Hlevel Hflag.
  unfold replicatorStatusChanged, statusChanged_locked,
    updateStatusFromReplicator, call_handleConnected, call_handleStopped,
    statusFlag, selfRetain_assign, notifyStateChanged, suspended_flag,
    updated_status in *; ctl_unfold.
  repeat (first [rewrite Hcur | rewrite Hlevel | rewrite Hflag]; cbn).
  destruct (_onStatusChanged c) eqn:Hcb; cbn; rewrite ?Hcb; reflexivity.
Qed.

(** X4.  Suspending a session whose level is below Connecting asks nothing
    of the engine and records that the session was not active; lifting the
    suspension then starts nothing and gives the controller back as it
    was, but for that record. *)
Theorem suspend_inactive_then_resume :
  forall (c : C4Replicator),
    suspended_flag c = false ->
    level_leb kC4Connecting (level (_status c)) = false ->
    trace_of (setSuspended true c) = [EvLock; EvUnlock]
    /\ suspended_flag (state_of (setSuspended true c)) = true
    /\ _activeWhenSuspended (state_of (setSuspended true c)) = false
    /\ setSuspended false (state_of (setSuspended true c))
       = (tt, set_activeWhenSuspended false c, [EvLock; EvUnlock]).
Proof.
  intros c Hflag Hlevel.
  pose proof (not_suspended_lor c Hflag) as Hlor.
  pose proof (not_suspended_land c Hflag) as Hland.
  assert (Hfirst :
    setSuspended true c
    = (tt,
       set_activeWhenSuspended false
         (set_status
            (with_flags (Z.lor (flags (_status c)) kC4Suspended) (_status c))
            c),
       [EvLock; EvUnlock])).
  { unfold setSuspended, setStatusFlag; ctl_unfold; cbn.
    cbn in Hlor; rewrite Hlor; cbn; rewrite Hlevel; reflexivity. }
  rewrite Hfirst; unfold state_of, trace_of; cbn [fst snd].
  split; [reflexivity |]. split.
  - unfold suspended_flag; cbn [_status set_activeWhenSuspended set_status
                                  with_flags flags].
    now rewrite land_lor_same.
  - split; [reflexivity |].
    unfold setSuspended, setStatusFlag; ctl_unfold.
    cbn [_status set_activeWhenSuspended set_status with_flags flags].
    rewrite (lor_then_clear _ _ Hland).
    rewrite Z.eqb_sym, Hlor; cbn.
    rewrite andb_false_r; cbn.
    destruct c as [o r s a h sr c1 c2 c3 n]; destruct s; reflexivity.
Qed.

(** X5.  Suspending a session of level Connecting or higher asks its engine
    to stop and keeps the engine reference; when the engine reports
    Stopped the session is Offline without an engine and still retained;
    lifting the suspension then makes a new engine instance, starts it,
    takes its status and clears the response headers, with the Suspended
    flag clear and the other flags as at the outset. *)
Theorem suspend_resume_cycle :
  forall (c : C4Replicator) (r : Replicator) (reported : C4ReplicatorStatus),
    _replicator c = Some r ->
    suspended_flag c = false ->
    level_leb kC4Connecting (level (_status c)) = true ->
    level reported = kC4Stopped ->
    let c1 := state_of (setSuspended true c) in
    let c2 := state_of (replicatorStatusChanged r reported c1) in
    let r3 := setSuspended false c2 in
    trace_of (setSuspended true c) = [EvLock; EvReplicatorStop r; EvUnlock]
    /\ _replicator c1 = Some r
    /\ level (_status c2) = kC4Offline
    /\ _replicator c2 = None
    /\ _selfRetain c2 = _selfRetain c
    /\ _status c2
       = with_level kC4Offline
           (with_flags (Z.lor (flags (_status c)) kC4Suspended) reported)
    /\ exists r' : Replicator,
         trace_of r3
         = [EvLock; EvCreateReplicator r'; EvSelfRetain true;
            EvReplicatorStart r'; EvUnlock]
         /\ _replicator (state_of r3) = Some r'
         /\ level (_status (state_of r3)) = level (replicator_status r')
         /\ suspended_flag (state_of r3) = false
         /\ other_flags (state_of r3) = other_flags c
         /\ _selfRetain (state_of r3) = true
         /\ _responseHeaders (state_of r3) = None
         /\ _status (state_of r3)
            = with_flags (other_flags c) (replicator_status r')
         /\ state_of r3
            = set_responseHeaders None
                (set_status
                   (with_flags (other_flags c) (replicator_status r'))
                   (assign_selfRetain true
                      (set_replicator (Some r')
                         (set_activeWhenSuspended true c)))).
Proof.
  intros c r reported Hrepl Hflag Hlevel Hreported c1 c2 r3.
  pose proof (setSuspended_active c r Hrepl Hflag Hlevel) as H1.
  assert (Hc1 : c1 = set_activeWhenSuspended true
                       (set_status
                          (with_flags (Z.lor (flags (_status c)) kC4Suspended)
                             (_status c)) c))
    by (subst c1; now rewrite H1).
  assert (Hcur : is_current r c1 = true)
    by (rewrite Hc1; unfold is_current; cbn; rewrite Hrepl; apply Nat.eqb_refl).
  assert (Hsusp : suspended_flag c1 = true)
    by (rewrite Hc1; unfold suspended_flag; cbn;
        now rewrite (land_lor_same (flags (_status c)) kC4Suspended)).
  pose proof (statusChanged_suspended_stop c1 r reported Hcur Hreported Hsusp)
    as H2; fold c2 in H2.
  assert (Hsusp2 : suspended_flag c2 = true)
    by (rewrite H2; unfold suspended_flag, updated_status in *; exact Hsusp).
  assert (Hactive2 : _activeWhenSuspended c2 = true)
    by (rewrite H2, Hc1; reflexivity).
  assert (Hrepl2 : _replicator c2 = None) by (rewrite H2; reflexivity).
  assert (Hlevel2 : level (_status c2) = kC4Offline) by (rewrite H2; reflexivity).
  pose proof (setSuspended_resumes c2 Hrepl2 Hsusp2 Hlevel2 Hactive2) as H3.
  cbv zeta in H3; fold r3 in H3.
  split; [now rewrite H1 |]. split; [rewrite Hc1; exact Hrepl |].
  split; [exact Hlevel2 |]. split; [exact Hrepl2 |].
  split; [rewrite H2, Hc1; reflexivity |].
  split; [rewrite H2, Hc1; reflexivity |].
  assert (Hflags2 :
    Z.land (flags (_status c2)) (Z.lnot kC4Suspended) = other_flags c).
  { rewrite H2, Hc1; unfold other_flags, updated_status.
    cbn [_status set_activeWhenSuspended set_replicator set_status with_flags
           with_level flags].
    apply lor_then_clear_lnot. }
  eexists; rewrite H3; unfold state_of, trace_of; cbn [fst snd].
  split; [reflexivity |]. split; [reflexivity |]. split; [reflexivity |].
  split; [| split; [| split; [reflexivity | split; [reflexivity | split]]]].
  3: { cbn [_status set_responseHeaders set_status with_flags flags].
       now rewrite Hflags2. }
  3: { unfold set_responseHeaders, set_status, assign_selfRetain,
         set_replicator, set_activeWhenSuspended.
       cbn [_options _replicator _status _activeWhenSuspended _responseHeaders
              _selfRetain _onStatusChanged _onDocumentsEnded _onBlobProgress
              selfRetentions with_flags flags].
       rewrite Hflags2, H2, Hc1; reflexivity. }
  - unfold suspended_flag; cbn.
    apply negb_false_iff, Z.eqb_eq.
    apply (land_land_lnot_same (flags (_status c2)) kC4Suspended).
  - unfold other_flags.
    cbn [_status set_responseHeaders set_status with_flags flags].
    rewrite land_lnot_twice, H2, Hc1.
    cbn [_status set_activeWhenSuspended set_replicator set_status with_flags
           with_level updated_status flags].
    unfold updated_status.
    cbn [_status set_activeWhenSuspended set_replicator set_status with_flags
           with_level flags].
    apply lor_then_clear_lnot.
Qed.

End Suspension.

(** ** Every call, case by case *)

Lemma trace_of_bind :
  forall (A B : Type) (m : M A) (k : A -> M B) (c : C4Replicator),
    trace_of (bind m k c)
    = trace_of (m c) ++ trace_of (k (value_of (m c)) (state_of (m c))).
Proof.
  intros A B m k c; unfold bind, state_of, value_of, trace_of.
  destruct (m c) as [[a c1] t1]; cbn.
  destruct (k a c1) as [[b c2] t2]; reflexivity.
Qed.

Section EveryCall.
Context {SC : Subclass} {CO : Collaborators}.

Lemma step_kept_alive :
  forall (op : Op) (c : C4Replicator),
    kept_alive c -> kept_alive (state_of (step op c)).
Proof.
  intros op c H; unfold kept_alive in *.
  destruct op; unfold_calls; explore;
    first [exact H
          | intros X; first [reflexivity | congruence | apply H; congruence]].
Qed.

Lemma run_kept_alive :
  forall (ops : list Op) (c : C4Replicator),
    kept_alive c -> kept_alive (state_of (run ops c)).
Proof.
  induction ops as [| op ops IH]; intros c H; [exact H |].
  unfold run in *; cbn [for_each].
  rewrite state_of_bind; apply IH, step_kept_alive, H.
Qed.

Lemma step_detached :
  forall (op : Op) (c : C4Replicator),
    detached c = true ->
    detached (state_of (step op c)) = true
    /\ no_client_callback (trace_of (step op c)) = true.
Proof.
  intros op c H; unfold detached in H.
  destruct (_onStatusChanged c) eqn:Hs; [discriminate |].
  destruct (_onDocumentsEnded c) eqn:Hd; [discriminate |].
  destruct (_onBlobProgress c) eqn:Hb; [discriminate |].
  destruct op; unfold_calls; explore; unfold detached; cbn;
    rewrite ?Hs, ?Hd, ?Hb; split; reflexivity.
Qed.

Lemma no_client_callback_app :
  forall (xs ys : list Event),
    no_client_callback (xs ++ ys)
    = no_client_callback xs && no_client_callback ys.
Proof. intros xs ys; unfold no_client_callback; apply forallb_app. Qed.

Lemma run_detached :
  forall (ops : list Op) (c : C4Replicator),
    detached c = true ->
    detached (state_of (run ops c)) = true
    /\ no_client_callback (trace_of (run ops c)) = true.
Proof.
  induction ops as [| op ops IH]; intros c H; [split; [exact H | reflexivity] |].
  unfold run in *; cbn [for_each].
  rewrite state_of_bind, trace_of_bind, no_client_callback_app.
  destruct (step_detached op c H) as [Hd Hq].
  destruct (IH _ Hd) as [Hd' Hq'].
  rewrite Hq, Hq'; split; [exact Hd' | reflexivity].
Qed.

End EveryCall.

Section Sequences.
Context {SC : Subclass} {CO : Collaborators}.

(** X7.  After [detach] no later call, from the application or from the
    engine, calls a client callback, and the callbacks stay cleared. *)
Theorem detach_silences_every_later_call :
  forall (c : C4Replicator) (ops : list Op),
    no_client_callback (trace_of (run ops (state_of (detach c)))) = true
    /\ detached (state_of (run ops (state_of (detach c)))) = true.
Proof.
  intros c ops.
  destruct (run_detached ops (state_of (detach c)) eq_refl) as [Hd Hq].
  split; assumption.
Qed.

(** X8.  A controller that was constructed without client callbacks, so
    that no call can be made from inside a callback, retains itself
    exactly once whenever it holds an engine reference, after every
    sequence of calls. *)
Theorem live_engine_keeps_controller_retained :
  forall (params : C4ReplicatorParameters) (ops : list Op) (r : Replicator),
    detached (construct params) = true ->
    _replicator (state_of (run ops (construct params))) = Some r ->
    _selfRetain (state_of (run ops (construct params))) = true
    /\ selfRetentions (state_of (run ops (construct params))) = 1
    /\ no_client_callback (trace_of (run ops (construct params))) = true.
Proof.
  intros params ops r Hdetached Hrepl.
  assert (Hs : _selfRetain (state_of (run ops (construct params))) = true).
  { apply (run_kept_alive ops (construct params)).
    - intros X; contradiction X; reflexivity.
    - rewrite Hrepl; discriminate. }
  split; [exact Hs |]. split.
  - pose proof (run_balanced ops (construct params)
                  (construct_balanced params)) as Hb.
    unfold balanced in Hb; rewrite Hb, Hs; reflexivity.
  - exact (proj2 (run_detached ops (construct params) Hdetached)).
Qed.

Lemma step_other_flags :
  (forall s, flags (handleConnected s) = flags s) ->
  (forall s, flags (handleStopped s) = flags s) ->
  forall (op : Op) (c : C4Replicator),
    other_flags (state_of (step op c)) = other_flags c.
Proof.
  intros Hconnected Hstopped op c; unfold other_flags.
  destruct op;
    try (unfold_calls; explore; reflexivity).
  - cbn [step]; rewrite setSuspended_flags; destruct suspended;
      [apply lor_then_clear_lnot | apply land_lnot_twice].
  - cbn [step]; now rewrite statusChanged_keeps_flags.
Qed.

(** X10.  If the subclass handlers leave the flags alone, as the empty ones of
    the base class do, no sequence of calls changes any flag other than
    Suspended; in particular HostReachable stays as it was. *)
Theorem only_the_suspended_flag_changes :
  (forall s, flags (handleConnected s) = flags s) ->
  (forall s, flags (handleStopped s) = flags s) ->
  forall (ops : list Op) (c : C4Replicator),
    other_flags (state_of (run ops c)) = other_flags c
    /\ hostReachable (state_of (run ops c)) = hostReachable c.
Proof.
  intros Hconnected Hstopped ops.
  assert (Hrun : forall c, other_flags (state_of (run ops c)) = other_flags c).
  { induction ops as [| op ops IH]; intros c; [reflexivity |].
    unfold run in *; cbn [for_each].
    rewrite state_of_bind, IH.
    now apply step_other_flags. }
  intros c; split; [apply Hrun |].
  specialize (Hrun c); unfold other_flags, hostReachable in *.
  rewrite <- (land_lnot_disjoint (flags (_status (state_of (run ops c))))
                kC4Suspended kC4HostReachable eq_refl).
  rewrite <- (land_lnot_disjoint (flags (_status c))
                kC4Suspended kC4HostReachable eq_refl).
  now rewrite Hrun.
Qed.

End Sequences.

(** ** Starting, and what the engine reports *)

Section Engine.
Context {SC : Subclass} {CO : Collaborators}.

(** X11.  [start] on a controller without an engine makes one engine
    instance, retains the controller, takes the engine's status but keeps
    the flags, clears the response headers and starts the engine; a second
    [start] then does nothing. *)
Theorem start_makes_one_engine :
  forall (c : C4Replicator),
    _replicator c = None ->
    let r := createReplicator c in
    trace_of (start c)
    = [EvLock; EvCreateReplicator r; EvSelfRetain true; EvReplicatorStart r;
       EvUnlock]
    /\ _replicator (state_of (start c)) = Some r
    /\ _selfRetain (state_of (start c)) = true
    /\ _responseHeaders (state_of (start c)) = None
    /\ _status (state_of (start c))
       = with_flags (flags (_status c)) (replicator_status r)
    /\ start (state_of (start c))
       = (tt, state_of (start c), [EvLock; EvUnlock]).
Proof.
  intros c Hrepl r; subst r.
  assert (Hstart :
    start c
    = (tt,
       set_responseHeaders None
         (set_status
            (with_flags (flags (_status c))
               (replicator_status (createReplicator c)))
            (assign_selfRetain true
               (set_replicator (Some (createReplicator c)) c))),
       [EvLock; EvCreateReplicator (createReplicator c); EvSelfRetain true;
        EvReplicatorStart (createReplicator c); EvUnlock])).
  { unfold start, _start, selfRetain_assign, updateStatusFromReplicator;
      ctl_unfold.
    rewrite Hrepl; cbn; rewrite Hrepl; reflexivity. }
  rewrite Hstart; unfold state_of, trace_of; cbn [fst snd].
  repeat split.
Qed.

(** X12.  The response headers of the current engine instance are captured
    when none are held, and [responseHeaders] then returns them; any
    further response of that engine fails the assertion and leaves the
    captured headers in place. *)
Theorem response_headers_captured_once :
  forall (c : C4Replicator) (repl : Replicator) (httpStatus : Z)
         (headers : string),
    is_current repl c = true ->
    _responseHeaders c = None ->
    let c1 := state_of (replicatorGotHTTPResponse repl httpStatus headers c) in
    value_of (responseHeaders c1) = Some headers
    /\ c1 = set_responseHeaders (Some headers) c
    /\ (forall (httpStatus' : Z) (headers' : string),
          replicatorGotHTTPResponse repl httpStatus' headers' c1
          = (tt, c1, [EvLock; EvAssertionFailed; EvUnlock])).
Proof.
  intros c repl httpStatus headers Hcur Hnone c1.
  assert (Hc1 : c1 = set_responseHeaders (Some headers) c).
  { subst c1; unfold replicatorGotHTTPResponse; ctl_unfold.
    rewrite Hcur, Hnone; reflexivity. }
  rewrite Hc1; split; [reflexivity |]. split; [reflexivity |].
  intros httpStatus' headers'.
  unfold replicatorGotHTTPResponse; ctl_unfold.
  assert (Hcur' : is_current repl (set_responseHeaders (Some headers) c) = true)
    by exact Hcur.
  rewrite Hcur'; reflexivity.
Qed.

(** X13.  Whatever an engine instance that is not the current one reports
    is dropped: the controller stays as it is and no client callback is
    called. *)
Theorem stale_engine_events_are_dropped :
  forall (c : C4Replicator) (repl : Replicator)
         (reported : C4ReplicatorStatus) (httpStatus : Z) (headers : string)
         (revs : list ReplicatedRev) (p : BlobProgress),
    is_current repl c = false ->
    replicatorStatusChanged repl reported c = (tt, c, [EvLock; EvUnlock])
    /\ replicatorGotHTTPResponse repl httpStatus headers c
       = (tt, c, [EvLock; EvUnlock])
    /\ replicatorDocumentsEnded repl revs c = (tt, c, [])
    /\ replicatorBlobProgress repl p c = (tt, c, []).
Proof.
  intros c repl reported httpStatus headers revs p Hcur.
  split; [now apply statusChanged_stale |].
  split; [| split].
  - unfold replicatorGotHTTPResponse; ctl_unfold; now rewrite Hcur.
  - apply replicatorDocumentsEnded_silent; now left.
  - unfold replicatorBlobProgress; ctl_unfold; now rewrite Hcur.
Qed.

(** X14.  A status report calls the connected hook once when it comes from
    the current engine instance and takes the level from Connecting or
    below to above Connecting, and not at all otherwise. *)
Theorem connected_hook_fires_on_crossing :
  forall (c : C4Replicator) (repl : Replicator)
         (reported : C4ReplicatorStatus),
    handleConnected_calls
      (trace_of (replicatorStatusChanged repl reported c))
    = if is_current repl c
         && crosses_connected (level (_status c)) (level reported)
      then 1 else 0.
Proof.
  intros c repl reported.
  destruct (is_current repl c) eqn:Hcur;
    [| now rewrite (statusChanged_stale c repl reported Hcur)].
  unfold crosses_connected; cbn [andb].
  destruct (level_ltb kC4Connecting (level reported)
            && level_leb (level (_status c)) kC4Connecting) eqn:Hcross;
    unfold_calls; rewrite Hcur; cbn; rewrite Hcross; explore; reflexivity.
Qed.

(** X15.  When the pending-documents query hands over at least one
    document, [pendingDocumentIDs] returns their IDs in the order they were
    handed over and leaves the error out-parameter alone if the query
    succeeded, and returns the null slice without any of them if the query
    failed after all; the controller is unchanged either way. *)
Theorem pendingDocumentIDs_lists_pending :
  forall (c : C4Replicator) (outErr : option C4Error) (docs : list string),
    docs <> [] ->
    pq_docs (pending_query c) = docs ->
    (pq_error (pending_query c) = None ->
     pendingDocumentIDs outErr c
     = ((EncodedArray docs, outErr), c, [EvLock; EvUnlock]))
    /\ (forall e : C4Error,
          pq_error (pending_query c) = Some e ->
          pendingDocumentIDs outErr c
          = ((NullSlice, write_error e outErr), c, [EvLock; EvUnlock])).
Proof.
  intros c outErr docs Hdocs Hquery; split.
  - intros Hok; rewrite pendingDocumentIDs_succeeded by exact Hok.
    rewrite Hquery; destruct docs; [contradiction | reflexivity].
  - intros e He; now apply pendingDocumentIDs_failed.
Qed.

End Engine.

Section EngineReference.
Context {SC : Subclass} {CO : Collaborators}.

(** X16.  A call after which the controller no longer holds the engine
    reference it held is a status report of that engine, has called
    [terminate] on it, and leaves no engine reference. *)
Theorem engine_terminated_when_dropped :
  forall (op : Op) (c : C4Replicator) (r : Replicator),
    _replicator c = Some r ->
    _replicator (state_of (step op c)) <> Some r ->
    In (EvReplicatorTerminate r) (trace_of (step op c))
    /\ _replicator (state_of (step op c)) = None
    /\ exists (reported : C4ReplicatorStatus), op = OpStatusChanged r reported.
Proof.
  intros op c r Hrepl Hdrop.
  destruct op;
    try (exfalso; apply Hdrop; revert Hrepl; clear Hdrop;
         unfold_calls; explore; congruence).
  assert (Hcur : is_current repl c = true).
  { destruct (is_current repl c) eqn:Hcur; trivial.
    exfalso; apply Hdrop; cbn [step].
    now rewrite (statusChanged_stale c repl newStatus Hcur). }
  assert (repl = r) as ->.
  { unfold is_current in Hcur; rewrite Hrepl in Hcur.
    now apply Nat.eqb_eq in Hcur. }
  split; [| split; [| now exists newStatus]];
    revert Hdrop; unfold_calls; rewrite Hcur; explore;
    first [intros X; contradiction X; assumption
          | intros _; auto 6 using in_eq, in_cons
          | reflexivity].
Qed.

(** X17.  An engine instance is made only by a call that found no engine
    reference; that call keeps the new instance, starts it and retains the
    controller. *)
Theorem engine_created_only_without_one :
  forall (op : Op) (c : C4Replicator) (r : Replicator),
    In (EvCreateReplicator r) (trace_of (step op c)) ->
    _replicator c = None
    /\ _replicator (state_of (step op c)) = Some r
    /\ In (EvReplicatorStart r) (trace_of (step op c))
    /\ _selfRetain (state_of (step op c)) = true.
Proof.
  intros op c r; destruct op; unfold_calls; explore;
    intros Hin;
    repeat match goal with
      | H : _ \/ _ |- _ => destruct H
      | H : False |- _ => contradiction
      | H : In _ _ |- _ => cbn in H
      end;
    try discriminate;
    match goal with
    | H : EvCreateReplicator _ = EvCreateReplicator _ |- _ =>
        injection H as <-
    end;
    repeat split; auto 6 using in_eq, in_cons.
Qed.

End EngineReference.

(** ** The theorems above, at concrete sessions *)

Lemma setStatusFlag_sets_the_flag_witness :
  Z.land (flags (_status (state_of (setStatusFlag kC4HostReachable true
                                      suspending))))
    kC4Suspended
  = Z.land (flags (_status suspending)) kC4Suspended.
Proof.
  apply (setStatusFlag_sets_the_flag kC4HostReachable true suspending).
  reflexivity.
Defined.

Lemma suspend_inactive_then_resume_witness :
  trace_of (@setSuspended baseClass quietWorld true fresh) = [EvLock; EvUnlock]
  /\ suspended_flag (state_of (@setSuspended baseClass quietWorld true fresh))
     = true
  /\ _activeWhenSuspended
       (state_of (@setSuspended baseClass quietWorld true fresh)) = false
  /\ @setSuspended baseClass quietWorld false
       (state_of (@setSuspended baseClass quietWorld true fresh))
     = (tt, set_activeWhenSuspended false fresh, [EvLock; EvUnlock]).
Proof.
  apply (@suspend_inactive_then_resume baseClass quietWorld fresh);
    reflexivity.
Defined.

Lemma suspend_resume_cycle_witness :
  trace_of (@setSuspended baseClass quietWorld true started)
  = [EvLock; EvReplicatorStop 1; EvUnlock]
  /\ level
       (_status
          (state_of
             (@replicatorStatusChanged baseClass 1 stoppedStatus
                (state_of (@setSuspended baseClass quietWorld true started)))))
     = kC4Offline
  /\ _replicator
       (state_of
          (@replicatorStatusChanged baseClass 1 stoppedStatus
             (state_of (@setSuspended baseClass quietWorld true started))))
     = None.
Proof.
  pose proof (@suspend_resume_cycle baseClass quietWorld started 1
                stoppedStatus eq_refl eq_refl eq_refl eq_refl) as H.
  cbv zeta in H; destruct H as (H1 & _ & H3 & H4 & _).
  split; [exact H1 | split; [exact H3 | exact H4]].
Defined.

Lemma start_makes_one_engine_witness :
  _replicator (state_of (@start baseClass quietWorld fresh)) = Some 1
  /\ @start baseClass quietWorld (state_of (@start baseClass quietWorld fresh))
     = (tt, state_of (@start baseClass quietWorld fresh), [EvLock; EvUnlock]).
Proof.
  destruct (@start_makes_one_engine baseClass quietWorld fresh eq_refl)
    as (_ & H2 & _ & _ & _ & H6).
  split; [exact H2 | exact H6].
Defined.

Lemma response_headers_captured_once_witness :
  value_of
    (responseHeaders
       (state_of (replicatorGotHTTPResponse 1 101 "Upgrade"%string started)))
  = Some "Upgrade"%string.
Proof.
  apply (response_headers_captured_once started 1 101%Z "Upgrade"%string);
    reflexivity.
Defined.

Lemma stale_engine_events_are_dropped_witness :
  @replicatorStatusChanged baseClass 2 stoppedStatus started
  = (tt, started, [EvLock; EvUnlock])
  /\ replicatorDocumentsEnded 2 [rev_push_a; rev_pull_b] started
     = (tt, started, []).
Proof.
  destruct (@stale_engine_events_are_dropped baseClass started 2 stoppedStatus
              101%Z "Upgrade"%string [rev_push_a; rev_pull_b]
              (mkBlobProgress kPushing "a" "photo" "key" 1 2 noError) eq_refl)
    as (H1 & _ & H3 & _).
  split; [exact H1 | exact H3].
Defined.

Lemma live_engine_keeps_controller_retained_witness :
  _selfRetain
    (state_of (@run baseClass quietWorld [OpStart; OpSetSuspended true]
                 (construct noCallbacks))) = true
  /\ selfRetentions
       (state_of (@run baseClass quietWorld [OpStart; OpSetSuspended true]
                    (construct noCallbacks))) = 1
  /\ no_client_callback
       (trace_of (@run baseClass quietWorld [OpStart; OpSetSuspended true]
                    (construct noCallbacks))) = true.
Proof.
  apply (@live_engine_keeps_controller_retained baseClass quietWorld
           noCallbacks [OpStart; OpSetSuspended true] 1);
    reflexivity.
Defined.

Lemma only_the_suspended_flag_changes_witness :
  other_flags suspended_offline = other_flags fresh
  /\ hostReachable suspended_offline = hostReachable fresh.
Proof.
  apply (@only_the_suspended_flag_changes baseClass quietWorld
           (fun s => eq_refl) (fun s => eq_refl)
           [OpStart; OpSetSuspended true; OpStatusChanged 1 stoppedStatus]
           fresh).
Defined.

Lemma pendingDocumentIDs_lists_pending_witness :
  @pendingDocumentIDs pendingWorld (Some noError) busy
  = ((EncodedArray ["doc1"%string; "doc2"%string], Some noError), busy,
     [EvLock; EvUnlock]).
Proof.
  apply (@pendingDocumentIDs_lists_pending pendingWorld busy (Some noError)
           ["doc1"%string; "doc2"%string]);
    [discriminate | reflexivity | reflexivity].
Defined.

Lemma engine_terminated_when_dropped_witness :
  In (EvReplicatorTerminate 1)
     (trace_of (@step baseClass quietWorld (OpStatusChanged 1 stoppedStatus)
                  busy))
  /\ _replicator
       (state_of (@step baseClass quietWorld (OpStatusChanged 1 stoppedStatus)
                    busy)) = None.
Proof.
  destruct (@engine_terminated_when_dropped baseClass quietWorld
              (OpStatusChanged 1 stoppedStatus) busy 1 eq_refl)
    as (H1 & H2 & _); [discriminate |].
  split; [exact H1 | exact H2].
Defined.

Lemma engine_created_only_without_one_witness :
  _replicator suspended_offline = None
  /\ _replicator
       (state_of (@step baseClass quietWorld (OpSetSuspended false)
                    suspended_offline)) = Some 1.
Proof.
  destruct (@engine_created_only_without_one baseClass quietWorld
              (OpSetSuspended false) suspended_offline 1)
    as (H1 & H2 & _); [cbn; auto |].
  split; [exact H1 | exact H2].
Defined.

Lemma step_unlocked_callbacks_witness :
  callback_under_lock false
    (trace_of (@step baseClass quietWorld (OpStatusChanged 1 stoppedStatus)
                 started)) = false.
Proof.
  apply (@step_unlocked_callbacks baseClass quietWorld
           (OpStatusChanged 1 stoppedStatus) started).
  discriminate.
Defined.

(** ** A callback that calls back *)

Section Reentry.
Context {SC : Subclass} {CO : Collaborators}.

(** With a callback that makes no call, the three functions are the ones
    of the member-function section. *)
Lemma notifyStateChanged_calling_inert :
  forall (c : C4Replicator),
    notifyStateChanged_calling (fun _ => ret tt) c = notifyStateChanged c.
Proof.
  intros c; unfold notifyStateChanged_calling, notifyStateChanged; ctl_unfold.
  destruct (_onStatusChanged c); reflexivity.
Qed.

Lemma replicatorStatusChanged_calling_inert :
  forall (repl : Replicator) (reported : C4ReplicatorStatus)
         (c : C4Replicator),
    replicatorStatusChanged_calling (fun _ => ret tt) repl reported c
    = replicatorStatusChanged repl reported c.
Proof.
  intros repl reported c.
  unfold replicatorStatusChanged_calling, replicatorStatusChanged.
  unfold bind at 1 3.
  destruct (statusChanged_locked repl reported c) as [[[stopped |] c1] t1];
    [| reflexivity].
  unfold bind; rewrite notifyStateChanged_calling_inert; reflexivity.
Qed.

Lemma stop_calling_inert :
  forall (c : C4Replicator), stop_calling (fun _ => ret tt) c = stop c.
Proof.
  intros c; unfold stop_calling, stop, notifyStateChanged_calling,
    notifyStateChanged; ctl_unfold.
  destruct (_replicator c); [reflexivity |].
  destruct (negb (level_eqb (level (_status c)) kC4Stopped)); [| reflexivity].
  cbn; destruct (_onStatusChanged c); reflexivity.
Qed.

(** X9.  A status-changed callback that calls [start] while it is told
    that the session has stopped gets a new engine instance made and
    started; when the callback returns, the handler gives back the
    self-retention all the same.  The controller is left holding a running
    engine without retaining itself, and [status()] returns the status of
    the new engine, not the Stopped status the callback was told. *)
Theorem restart_inside_stopped_callback :
  forall (c : C4Replicator) (repl : Replicator)
         (reported : C4ReplicatorStatus)
         (cb : C4ReplicatorStatusChangedCallback),
    is_current repl c = true ->
    level reported = kC4Stopped ->
    suspended_flag c = false ->
    level (handleStopped (updated_status c reported)) = kC4Stopped ->
    _onStatusChanged c = Some cb ->
    let told := handleStopped (updated_status c reported) in
    let r := replicatorStatusChanged_calling (fun _ => start) repl reported c in
    exists r' : Replicator,
      trace_of r
      = [EvLock; EvReplicatorTerminate repl; EvHandleStopped; EvUnlock;
         EvNotifyStateChanged told;
         EvOnStatusChanged cb told (callbackContext (_options c));
         EvLock; EvCreateReplicator r'; EvSelfRetain true;
         EvReplicatorStart r'; EvUnlock;
         EvSelfRetain false]
      /\ _replicator (state_of r) = Some r'
      /\ _selfRetain (state_of r) = false
      /\ selfRetentions (state_of r)
         = selfRetentions c + 1 - b2n (_selfRetain c) - 1
      /\ _status (state_of r)
         = with_flags (flags told) (replicator_status r')
      /\ value_of (status (state_of r))
         = with_flags (flags told) (replicator_status r').
Proof.
  intros c repl reported cb Hcur Hlevel Hflag Hstop Hcb told r.
  subst told r.
  unfold replicatorStatusChanged_calling, notifyStateChanged_calling,
    statusChanged_locked, updateStatusFromReplicator, call_handleConnected,
    call_handleStopped, statusFlag, selfRetain_assign, start, _start,
    suspended_flag, updated_status in *; ctl_unfold.
  repeat (first [rewrite Hcur | rewrite Hlevel | rewrite Hflag
                | rewrite Hstop | rewrite Hcb]; cbn).
  eexists; repeat split; lia.
Qed.


End Reentry.

Lemma restart_inside_stopped_callback_witness :
  _replicator
    (state_of (@replicatorStatusChanged_calling baseClass
                 (fun _ => @start baseClass quietWorld) 1 stoppedStatus
                 started)) = Some 1
  /\ _selfRetain
       (state_of (@replicatorStatusChanged_calling baseClass
                    (fun _ => @start baseClass quietWorld) 1 stoppedStatus
                    started)) = false
  /\ level
       (value_of
          (status
             (state_of (@replicatorStatusChanged_calling baseClass
                          (fun _ => @start baseClass quietWorld) 1
                          stoppedStatus started)))) = kC4Connecting.
Proof.
  pose proof (@restart_inside_stopped_callback baseClass quietWorld started 1
                stoppedStatus 100 eq_refl eq_refl eq_refl eq_refl eq_refl)
    as H.
  cbv zeta in H; destruct H as (r' & Htr & Hrepl & Hself & _ & _ & Hstatus).
  assert (r' = 1) as -> by (cbn in Htr; congruence).
  split; [exact Hrepl | split; [exact Hself |]].
  rewrite Hstatus; reflexivity.
Defined.

